(** * dropbox-mcp: a shallow embedding of [src/index.ts]

    The server is a thin adapter between a tool protocol and the Dropbox
    Web API.  This development embeds the token store, the HTTP helper,
    the authentication helpers, the Dropbox operations and the tool
    handlers, and states the properties of the specification over them.

    JavaScript strings are sequences of UTF-16 code units; they are
    modelled as lists of integers.  The mutable process state (the
    [DROPBOX_REFRESH_TOKEN] entry of [process.env] and the token file) is
    threaded explicitly; the network and [JSON.parse] are parameters. *)

From Stdlib Require Import String Ascii ZArith List Bool Lia.
Set Warnings "-register-all,-notation-for-abbreviation,-abstract-large-number".
Import ListNotations.
Local Open Scope Z_scope.

(* ================================================================== *)
(** * JavaScript strings *)
(* ================================================================== *)

Definition code_unit := Z.
Definition jsstring := list code_unit.

Definition is_code_unit (c : Z) : Prop := 0 <= c <= 65535.
Definition wf_jsstring (s : jsstring) : Prop := Forall is_code_unit s.

(** A decidable form of [wf_jsstring]. *)
Definition code_units_only (s : jsstring) : bool :=
  forallb (fun c => (0 <=? c) && (c <=? 65535)) s.

Definition unit_of_ascii (a : ascii) : code_unit := Z.of_N (N_of_ascii a).

(** [js "lit"] is the JavaScript string with the characters of an ASCII
    literal. *)
Fixpoint js (s : string) : jsstring :=
  match s with
  | EmptyString => []
  | String a rest => unit_of_ascii a :: js rest
  end.
Arguments js s%_string.

Definition DQUOTE : code_unit := 34.
Definition BACKSLASH : code_unit := 92.

Fixpoint jsstring_eqb (a b : jsstring) : bool :=
  match a, b with
  | [], [] => true
  | x :: a', y :: b' => (x =? y) && jsstring_eqb a' b'
  | _, _ => false
  end.

(** Truthiness of a string: every string but the empty one. *)
Definition truthy (s : jsstring) : bool :=
  match s with [] => false | _ :: _ => true end.

(** Truthiness of a possibly undefined string. *)
Definition truthy_opt (o : option jsstring) : bool :=
  match o with None => false | Some s => truthy s end.

(* ------------------------------------------------------------------ *)
(** ** Built-ins used by the program *)
(* ------------------------------------------------------------------ *)

Module JS.

(** Digits of [Number.prototype.toString(radix)]: ['0'..'9'], ['a'..'z']. *)
Definition digit_char (d : Z) : code_unit :=
  if d <? 10 then 48 + d else 87 + d.

Fixpoint digits_aux (fuel : nat) (radix n : Z) (acc : jsstring) : jsstring :=
  match fuel with
  | O => acc
  | S fuel' =>
      let acc' := digit_char (n mod radix) :: acc in
      if n / radix =? 0 then acc' else digits_aux fuel' radix (n / radix) acc'
  end.

(** A number with [k] binary digits has at most [k] digits in any radix
    from 2 up. *)
Definition digits_fuel (n : Z) : nat := S (Z.to_nat (Z.log2 n)).

(** [Number.prototype.toString(radix)] and [String(n)] on integers. *)
Definition Number_toString (radix n : Z) : jsstring :=
  if n <? 0
  then 45 :: digits_aux (digits_fuel (- n)) radix (- n) []
  else digits_aux (digits_fuel n) radix n [].

Definition String_of_number (n : Z) : jsstring := Number_toString 10 n.

(** [s.slice(-k)]: the last [k] code units, the whole string when it is
    shorter. *)
Definition String_slice_last (k : nat) (s : jsstring) : jsstring :=
  skipn (length s - k) s.

(** [s.padStart(target, fill)]. *)
Definition String_padStart (target : nat) (fill s : jsstring) : jsstring :=
  if (target <=? length s)%nat then s
  else match fill with
       | [] => s
       | _ :: _ =>
           let missing := (target - length s)%nat in
           firstn missing (concat (repeat fill missing)) ++ s
       end.

(** [s.replace(/[class]/g, f)] for a character class: every code unit of
    the class is replaced by the replacement computed from it, the others
    are kept. *)
Definition String_replace_class
  (class : code_unit -> bool) (f : code_unit -> jsstring) (s : jsstring)
  : jsstring :=
  flat_map (fun c => if class c then f c else [c]) s.

(** WhiteSpace and LineTerminator code points of ECMAScript, which
    [String.prototype.trim] strips. *)
Definition is_whitespace (c : code_unit) : bool :=
  (c =? 9) || (c =? 10) || (c =? 11) || (c =? 12) || (c =? 13) ||
  (c =? 32) || (c =? 160) || (c =? 5760) ||
  ((8192 <=? c) && (c <=? 8202)) ||
  (c =? 8232) || (c =? 8233) || (c =? 8239) || (c =? 8287) ||
  (c =? 12288) || (c =? 65279).

Fixpoint String_trimStart (s : jsstring) : jsstring :=
  match s with
  | [] => []
  | c :: rest => if is_whitespace c then String_trimStart rest else s
  end.

Definition String_trimEnd (s : jsstring) : jsstring :=
  rev (String_trimStart (rev s)).

Definition String_trim (s : jsstring) : jsstring :=
  String_trimEnd (String_trimStart s).

(** *** JSON.stringify *)

Definition is_leading_surrogate (c : code_unit) : bool :=
  (55296 <=? c) && (c <=? 56319).
Definition is_trailing_surrogate (c : code_unit) : bool :=
  (56320 <=? c) && (c <=? 57343).

(** [UnicodeEscape]: a backslash, [u] and four lower-case hex digits. *)
Definition UnicodeEscape (c : code_unit) : jsstring :=
  js "\u" ++ String_padStart 4 (js "0") (Number_toString 16 c).

(** The escapes of [QuoteJSONString] for a code unit that is not part of
    a surrogate pair. *)
Definition quote_unit (c : code_unit) : jsstring :=
  if c =? 8 then js "\b"
  else if c =? 9 then js "\t"
  else if c =? 10 then js "\n"
  else if c =? 12 then js "\f"
  else if c =? 13 then js "\r"
  else if c =? 34 then [BACKSLASH; DQUOTE]
  else if c =? 92 then [BACKSLASH; BACKSLASH]
  else if (c <? 32) || is_leading_surrogate c || is_trailing_surrogate c
       then UnicodeEscape c
  else [c].

(** The body of [QuoteJSONString]: the string is read code point by code
    point, so a leading surrogate followed by a trailing one is copied as
    it is, and a surrogate on its own is escaped. *)
Fixpoint quote_units (s : jsstring) : jsstring :=
  match s with
  | [] => []
  | c :: rest =>
      if is_leading_surrogate c then
        match rest with
        | d :: rest' =>
            if is_trailing_surrogate d then c :: d :: quote_units rest'
            else quote_unit c ++ quote_units rest
        | [] => quote_unit c
        end
      else quote_unit c ++ quote_units rest
  end.

Definition QuoteJSONString (s : jsstring) : jsstring :=
  DQUOTE :: quote_units s ++ [DQUOTE].

End JS.

(* ------------------------------------------------------------------ *)
(** ** Values handed to [JSON.stringify] *)
(* ------------------------------------------------------------------ *)

(** The values the program serialises: strings, booleans, [undefined],
    [null], arrays and object literals (properties in insertion order). *)
Inductive jsval : Type :=
| JUndefined
| JNull
| JBool (b : bool)
| JStr (s : jsstring)
| JArr (items : list jsval)
| JObj (props : list (jsstring * jsval)).

Module JSON.

Fixpoint join (sep : jsstring) (parts : list jsstring) : jsstring :=
  match parts with
  | [] => []
  | [p] => p
  | p :: rest => p ++ sep ++ join sep rest
  end.

Definition newline : jsstring := [10].

(** [SerializeJSONProperty]: [None] stands for [undefined], which makes
    [SerializeJSONObject] leave the property out and [SerializeJSONArray]
    print [null]. *)
Fixpoint serialize (gap indent : jsstring) (v : jsval) : option jsstring :=
  match v with
  | JUndefined => None
  | JNull => Some (js "null")
  | JBool true => Some (js "true")
  | JBool false => Some (js "false")
  | JStr s => Some (JS.QuoteJSONString s)
  | JArr items =>
      let stepback := indent in
      let indent := indent ++ gap in
      let partial :=
        (fix elements (l : list jsval) : list jsstring :=
           match l with
           | [] => []
           | x :: l' =>
               match serialize gap indent x with
               | None => js "null"
               | Some str => str
               end :: elements l'
           end) items in
      Some (match partial with
            | [] => js "[]"
            | _ :: _ =>
                if truthy gap
                then js "[" ++ newline ++ indent
                     ++ join (js "," ++ newline ++ indent) partial
                     ++ newline ++ stepback ++ js "]"
                else js "[" ++ join (js ",") partial ++ js "]"
            end)
  | JObj props =>
      let stepback := indent in
      let indent := indent ++ gap in
      let partial :=
        (fix members (l : list (jsstring * jsval)) : list jsstring :=
           match l with
           | [] => []
           | (k, x) :: l' =>
               match serialize gap indent x with
               | None => members l'
               | Some str =>
                   (JS.QuoteJSONString k ++ js ":"
                    ++ (if truthy gap then js " " else []) ++ str)
                   :: members l'
               end
           end) props in
      Some (match partial with
            | [] => js "{}"
            | _ :: _ =>
                if truthy gap
                then js "{" ++ newline ++ indent
                     ++ join (js "," ++ newline ++ indent) partial
                     ++ newline ++ stepback ++ js "}"
                else js "{" ++ join (js ",") partial ++ js "}"
            end)
  end.

(** [JSON.stringify(v)]. *)
Definition stringify (v : jsval) : option jsstring := serialize [] [] v.

(** [JSON.stringify(v, null, 2)]: the gap is two spaces. *)
Definition stringify_indent2 (v : jsval) : option jsstring :=
  serialize (js "  ") [] v.

(** The program only serialises object literals and arrays, for which
    the result is always a string. *)
Definition text_of (o : option jsstring) : jsstring :=
  match o with Some s => s | None => js "undefined" end.

End JSON.

(* ================================================================== *)
(** * Pure helpers of [index.ts] *)
(* ================================================================== *)

(** The character class of the pattern in [escapeNonAscii]: the code
    units from U+007F to U+FFFF. *)
Definition non_ascii_class (c : code_unit) : bool :=
  (127 <=? c) && (c <=? 65535).

(** The replacer of [escapeNonAscii]: a backslash and [u], then the last
    four characters of [0000] followed by the code unit in hexadecimal. *)
Definition escape_replacer (c : code_unit) : jsstring :=
  js "\u" ++ JS.String_slice_last 4 (js "0000" ++ JS.Number_toString 16 c).

Definition escapeNonAscii (str : jsstring) : jsstring :=
  JS.String_replace_class non_ascii_class escape_replacer str.

(** The local-time fields of a [Date] that [generateFileName] reads from
    [new Date()]. *)
Record LocalTime : Type := mkLocalTime {
  getFullYear : Z;
  getMonth : Z;     (* 0 .. 11 *)
  getDate : Z;      (* 1 .. 31 *)
  getHours : Z;     (* 0 .. 23 *)
  getMinutes : Z    (* 0 .. 59 *)
}.

Definition valid_LocalTime (t : LocalTime) : Prop :=
  0 <= getMonth t <= 11 /\ 1 <= getDate t <= 31 /\
  0 <= getHours t <= 23 /\ 0 <= getMinutes t <= 59.

(** The character class of the pattern in [generateFileName]: slash,
    backslash, question mark, percent, star, colon, bar, double quote,
    less-than and greater-than. *)
Definition filename_forbidden (c : code_unit) : bool :=
  (c =? 47) (* / *) || (c =? 92) (* \ *) || (c =? 63) (* ? *) ||
  (c =? 37) (* % *) || (c =? 42) (* * *) || (c =? 58) (* : *) ||
  (c =? 124) (* | *) || (c =? 34) (* double quote *) ||
  (c =? 60) (* < *) || (c =? 62) (* > *).

Definition generateFileName (now : LocalTime) (title : jsstring) : jsstring :=
  let year := getFullYear now in
  let month := JS.String_padStart 2 (js "0") (JS.String_of_number (getMonth now + 1)) in
  let day := JS.String_padStart 2 (js "0") (JS.String_of_number (getDate now)) in
  let hours := JS.String_padStart 2 (js "0") (JS.String_of_number (getHours now)) in
  let minutes := JS.String_padStart 2 (js "0") (JS.String_of_number (getMinutes now)) in
  let timestamp := JS.String_of_number year ++ month ++ day ++ hours ++ minutes in
  let sanitizedTitle :=
    JS.String_replace_class filename_forbidden (fun _ => js "-") title in
  timestamp ++ js "-" ++ sanitizedTitle ++ js ".md".


(* ================================================================== *)
(** * Process state and effects *)
(* ================================================================== *)

(** The mutable state the program reads and writes: the
    [DROPBOX_REFRESH_TOKEN] entry of [process.env] ([None] when unset) and
    the text of the file at [TOKEN_FILE_PATH] ([None] when the file does
    not exist).  The file system is taken to store text faithfully and
    not to fail; the file mode is not modelled. *)
Record World : Type := mkWorld {
  env_DROPBOX_REFRESH_TOKEN : option jsstring;
  token_file : option jsstring
}.

Inductive Error : Type := mkError (message : jsstring).

Definition message (e : Error) : jsstring :=
  match e with mkError m => m end.

(** The result of a call: a returned value (a resolved promise) or a
    thrown error (a rejected promise). *)
Inductive outcome (A : Type) : Type :=
| Returned (a : A)
| Thrown (e : Error).
Arguments Returned {A} a.
Arguments Thrown {A} e.

(** Computations over the process state. *)
Definition M (A : Type) : Type := World -> outcome A * World.

Definition ret {A} (a : A) : M A := fun w => (Returned a, w).
Definition throw {A} (e : Error) : M A := fun w => (Thrown e, w).
Definition bind {A B} (m : M A) (k : A -> M B) : M B :=
  fun w =>
    match m w with
    | (Returned a, w') => k a w'
    | (Thrown e, w') => (Thrown e, w')
    end.
Definition lift {A} (o : outcome A) : M A := fun w => (o, w).

Notation "'let*' x ':=' m 'in' k" := (bind m (fun x => k))
  (at level 10, x name, m at level 100, k at level 200).
Notation "m ';;' k" := (bind m (fun _ => k))
  (at level 100, k at level 200, right associativity).

Definition get_env_DROPBOX_REFRESH_TOKEN : M (option jsstring) :=
  fun w => (Returned (env_DROPBOX_REFRESH_TOKEN w), w).

Definition set_env_DROPBOX_REFRESH_TOKEN (v : jsstring) : M unit :=
  fun w => (Returned tt, mkWorld (Some v) (token_file w)).

(** [fs.existsSync] followed by [fs.readFileSync] on the token file. *)
Definition fs_read_token_file : M (option jsstring) :=
  fun w => (Returned (token_file w), w).

(** [fs.writeFileSync] on the token file: creates or truncates it. *)
Definition fs_write_token_file (data : jsstring) : M unit :=
  fun w => (Returned tt, mkWorld (env_DROPBOX_REFRESH_TOKEN w) (Some data)).

(* ------------------------------------------------------------------ *)
(** ** Token store *)
(* ------------------------------------------------------------------ *)

Definition saveRefreshToken (token : jsstring) : M unit :=
  fs_write_token_file token.

Definition loadRefreshToken : M (option jsstring) :=
  let* file := fs_read_token_file in
  match file with
  | Some text => ret (Some (JS.String_trim text))
  | None => ret None
  end.

Definition getRefreshToken_message : jsstring :=
  JSON.join JSON.newline
    [ js "Dropbox refresh token is not configured.";
      js "Set DROPBOX_REFRESH_TOKEN (recommended) or create a token file.";
      js "You can also use MCP tools:";
      js "- dropbox_auth_get_url (open the URL, authorize, copy the code)";
      js "- dropbox_auth_exchange_code (exchange code -> refresh token; optionally save)" ].

Definition getRefreshToken : M jsstring :=
  let* refreshToken := get_env_DROPBOX_REFRESH_TOKEN in
  let* refreshToken :=
    if negb (truthy_opt refreshToken)
    then loadRefreshToken
    else ret refreshToken in
  match refreshToken with
  | Some token =>
      if negb (truthy token) then throw (mkError getRefreshToken_message)
      else ret token
  | None => throw (mkError getRefreshToken_message)
  end.

(* ================================================================== *)
(** * HTTP client *)
(* ================================================================== *)

(** The options of [https.request], with what [req.write] sends:
    nothing when the body is absent or empty. *)
Record Request : Type := mkRequest {
  hostname : jsstring;
  path : jsstring;
  method : jsstring;
  headers : list (jsstring * jsstring);
  written : option jsstring
}.

(** What happens to a request once it has been sent: the response
    arrives in full ([data] is the concatenation of its chunks), or the
    request emits [error], or the socket stays idle for thirty seconds
    (the timeout callback then destroys the request with an error of its
    own, which is emitted as [error]). *)
Inductive Incoming : Type :=
| ResponseEnd (statusCode : option Z) (data : jsstring)
| RequestError (e : Error)
| SocketIdle.

(** How a response body is seen at the type [T] the caller asks for:
    [JSON_parse] is [JSON.parse(data) as T] ([None] when [JSON.parse]
    throws) and [text_as] is [data as unknown as T]. *)
Class FromJSON (T : Type) : Type := JSON_parse : jsstring -> option T.
Class FromText (T : Type) : Type := text_as : jsstring -> T.

(** [`${x}`] for a possibly undefined string and for a possibly
    undefined integer. *)
Definition template_string (o : option jsstring) : jsstring :=
  match o with Some s => s | None => js "undefined" end.
Definition template_number (o : option Z) : jsstring :=
  match o with Some n => JS.String_of_number n | None => js "undefined" end.

(** [res.statusCode && res.statusCode >= 200 && res.statusCode < 300] *)
Definition status_is_success (statusCode : option Z) : bool :=
  match statusCode with
  | None => false
  | Some c => negb (c =? 0) && (200 <=? c) && (c <? 300)
  end.

(* ------------------------------------------------------------------ *)
(** ** Response types *)
(* ------------------------------------------------------------------ *)

(** The response of the token endpoint as [getAccessToken] reads it.  A
    field is [None] when the value received does not have it. *)
Module TokenResponse.
Record t : Type := mk {
  access_token : option jsstring;
  token_type : option jsstring;
  expires_in : option Z;
  refresh_token : option jsstring
}.
End TokenResponse.

(** The response of the token endpoint as [exchangeCodeForToken]
    declares it. *)
Module TokenPair.
Record t : Type := mk {
  access_token : option jsstring;
  refresh_token : option jsstring
}.
End TokenPair.

Inductive EntryTag : Type := file | folder.

Record DropboxEntry : Type := mkDropboxEntry {
  tag : EntryTag;
  name : jsstring;
  path_lower : jsstring;
  path_display : jsstring;
  id : jsstring
}.

Record DropboxListFolderResponse : Type := mkDropboxListFolderResponse {
  entries : option (list DropboxEntry);
  cursor : option jsstring;
  has_more : option bool
}.

(** A string has none of the properties the callers read. *)
#[export] Instance text_as_TokenResponse : FromText TokenResponse.t :=
  fun _ => TokenResponse.mk None None None None.
#[export] Instance text_as_TokenPair : FromText TokenPair.t :=
  fun _ => TokenPair.mk None None.
#[export] Instance text_as_ListFolder : FromText DropboxListFolderResponse :=
  fun _ => mkDropboxListFolderResponse None None None.
#[export] Instance text_as_string : FromText jsstring := fun data => data.

Section HttpClient.

(** The network. *)
Variable https_request : Request -> Incoming.

Section MakeRequest.
Context {T : Type} {parse : FromJSON T} {cast : FromText T}.

(** The handler of the response's [end] event. *)
Definition makeRequest_on_end (statusCode : option Z) (data : jsstring)
  : outcome T :=
  if status_is_success statusCode then
    match JSON_parse data with
    | Some v => Returned v
    | None => Returned (text_as data)
    end
  else
    Thrown (mkError (js "Request failed: " ++ template_number statusCode
                     ++ js " - " ++ data)).

Definition makeRequest
  (hostname path method : jsstring) (headers : list (jsstring * jsstring))
  (body : option jsstring) : outcome T :=
  let options :=
    mkRequest hostname path method headers
              (if truthy_opt body then body else None) in
  match https_request options with
  | ResponseEnd statusCode data => makeRequest_on_end statusCode data
  | RequestError e => Thrown e
  | SocketIdle => Thrown (mkError (js "Request timed out"))
  end.

End MakeRequest.

(* ================================================================== *)
(** * Auth manager and Dropbox operations *)
(* ================================================================== *)

(** Configuration read once at start-up, and the built-ins whose result
    the properties below do not depend on. *)
Variable APP_KEY : jsstring.
Variable APP_SECRET : jsstring.
Variable TOKEN_FILE_PATH : jsstring.
Variable URLSearchParams_toString : list (jsstring * jsstring) -> jsstring.
Variable Buffer_byteLength : jsstring -> Z.
Context {parse_TokenResponse : FromJSON TokenResponse.t}.
Context {parse_TokenPair : FromJSON TokenPair.t}.
Context {parse_ListFolder : FromJSON DropboxListFolderResponse}.
Context {parse_string : FromJSON jsstring}.

Definition getAuthUrl : jsstring :=
  js "https://www.dropbox.com/oauth2/authorize?client_id=" ++ APP_KEY
  ++ js "&response_type=code&token_access_type=offline".

(** The parameters of the refresh request. *)
Definition refresh_params (refreshToken : jsstring)
  : list (jsstring * jsstring) :=
  [ (js "grant_type", js "refresh_token");
    (js "refresh_token", refreshToken);
    (js "client_id", APP_KEY);
    (js "client_secret", APP_SECRET) ].

Definition form_headers (body : jsstring) : list (jsstring * jsstring) :=
  [ (js "Content-Type", js "application/x-www-form-urlencoded");
    (js "Content-Length", JS.String_of_number (Buffer_byteLength body)) ].

Definition getAccessToken : M (option jsstring) :=
  let* refreshToken := getRefreshToken in
  let body := URLSearchParams_toString (refresh_params refreshToken) in
  let* response :=
    lift (makeRequest (js "api.dropboxapi.com") (js "/oauth2/token") (js "POST")
                      (form_headers body) (Some body)) in
  ret (TokenResponse.access_token response).

Definition exchange_params (authCode : jsstring)
  : list (jsstring * jsstring) :=
  [ (js "code", authCode);
    (js "grant_type", js "authorization_code");
    (js "client_id", APP_KEY);
    (js "client_secret", APP_SECRET) ].

Definition exchangeCodeForToken (authCode : jsstring) : M TokenPair.t :=
  let body := URLSearchParams_toString (exchange_params authCode) in
  lift (makeRequest (js "api.dropboxapi.com") (js "/oauth2/token") (js "POST")
                    (form_headers body) (Some body)).

(** The argument object of the download endpoint, [{ path: filePath }]. *)
Definition download_arg (filePath : jsstring) : jsval :=
  JObj [ (js "path", JStr filePath) ].

Definition download_headers (accessToken : option jsstring)
  (filePath : jsstring) : list (jsstring * jsstring) :=
  [ (js "Authorization", js "Bearer " ++ template_string accessToken);
    (js "Dropbox-API-Arg",
     escapeNonAscii (JSON.text_of (JSON.stringify (download_arg filePath))));
    (js "Content-Type", js "text/plain; charset=utf-8") ].

Definition downloadFile (filePath : jsstring) : M jsstring :=
  let* accessToken := getAccessToken in
  lift (makeRequest (js "content.dropboxapi.com") (js "/2/files/download")
                    (js "POST") (download_headers accessToken filePath) None).

(** The object serialised into the body of the list request. *)
Definition listFolder_arg (folderPath : jsstring) : jsval :=
  JObj [ (js "path",
          JStr (if jsstring_eqb folderPath (js "/") then [] else folderPath));
         (js "recursive", JBool false);
         (js "include_media_info", JBool false);
         (js "include_deleted", JBool false);
         (js "include_has_explicit_shared_members", JBool false) ].

Definition listFolder_headers (accessToken : option jsstring)
  : list (jsstring * jsstring) :=
  [ (js "Authorization", js "Bearer " ++ template_string accessToken);
    (js "Content-Type", js "application/json") ].

Definition listFolder (folderPath : jsstring)
  : M (option (list DropboxEntry)) :=
  let* accessToken := getAccessToken in
  let body := JSON.text_of (JSON.stringify (listFolder_arg folderPath)) in
  let* result :=
    lift (makeRequest (js "api.dropboxapi.com") (js "/2/files/list_folder")
                      (js "POST") (listFolder_headers accessToken)
                      (Some body)) in
  ret (entries result).

(* ================================================================== *)
(** * Tool handlers *)
(* ================================================================== *)

(** The result of a tool call: one text item, and the error flag. *)
Record CallToolResult : Type := mkCallToolResult {
  text : jsstring;
  isError : bool
}.

(** The [try]/[catch] around the handlers. *)
Definition tool_boundary (handler : M jsstring)
  : World -> CallToolResult * World :=
  fun w =>
    match handler w with
    | (Returned t, w') => (mkCallToolResult t false, w')
    | (Thrown e, w') =>
        (mkCallToolResult (js "Error: " ++ message e) true, w')
    end.

(** [x ?? ""] *)
Definition or_empty (o : option jsstring) : jsstring :=
  match o with Some s => s | None => [] end.

(** The object [{ configured, source }] of [dropbox_auth_status]. *)
Definition auth_status_value : M jsval :=
  let* env := get_env_DROPBOX_REFRESH_TOKEN in
  let envToken := JS.String_trim (or_empty env) in
  let* loaded := loadRefreshToken in
  let fileToken := JS.String_trim (or_empty loaded) in
  let configured := truthy envToken || truthy fileToken in
  let source :=
    if truthy envToken then js "env:DROPBOX_REFRESH_TOKEN"
    else if truthy fileToken then js "file:" ++ TOKEN_FILE_PATH
    else js "none" in
  ret (JObj [ (js "configured", JBool configured);
              (js "source", JStr source) ]).

Definition dropbox_auth_status : M jsstring :=
  let* value := auth_status_value in
  ret (JSON.text_of (JSON.stringify_indent2 value)).

Definition exchange_code_no_token_message : jsstring :=
  js "Dropbox did not return a refresh_token. Ensure you requested offline access (token_access_type=offline) and the app is configured correctly.".

(** [save !== false] *)
Definition should_save (save : option bool) : bool :=
  match save with Some false => false | _ => true end.

(** The object serialised as the result of [dropbox_auth_exchange_code]. *)
Definition exchange_code_value (refreshToken : jsstring) (shouldSave : bool)
  : jsval :=
  JObj [ (js "refresh_token", JStr refreshToken);
         (js "saved", JBool shouldSave);
         (js "tokenFile",
          if shouldSave then JStr TOKEN_FILE_PATH else JUndefined) ].

Definition dropbox_auth_exchange_code (authCode : jsstring)
  (save : option bool) : M jsstring :=
  let* tokens := exchangeCodeForToken authCode in
  match TokenPair.refresh_token tokens with
  | Some refreshToken =>
      if negb (truthy refreshToken)
      then throw (mkError exchange_code_no_token_message)
      else
        let shouldSave := should_save save in
        (if shouldSave then saveRefreshToken refreshToken else ret tt);;
        set_env_DROPBOX_REFRESH_TOKEN refreshToken;;
        ret (JSON.text_of
               (JSON.stringify_indent2
                  (exchange_code_value refreshToken shouldSave)))
  | None => throw (mkError exchange_code_no_token_message)
  end.

Definition dropbox_download (filePath : jsstring) : M jsstring :=
  downloadFile filePath.

(** [generateFileName] reads the clock; [now] is what it reads. *)
Definition dropbox_generate_filename (now : LocalTime) (title : jsstring)
  : M jsstring :=
  ret (generateFileName now title).

End HttpClient.

(* ================================================================== *)
(** * Reference shapes used in the statements *)
(* ================================================================== *)

(** Four lower-case hexadecimal digits of a code unit. *)
Definition hex4 (c : Z) : jsstring :=
  [ JS.digit_char (c / 4096 mod 16); JS.digit_char (c / 256 mod 16);
    JS.digit_char (c / 16 mod 16); JS.digit_char (c mod 16) ].

(** Two and four decimal digits. *)
Definition two_digits (n : Z) : jsstring :=
  [ 48 + n / 10 mod 10; 48 + n mod 10 ].
Definition four_digits (n : Z) : jsstring :=
  [ 48 + n / 1000 mod 10; 48 + n / 100 mod 10;
    48 + n / 10 mod 10; 48 + n mod 10 ].

(** Printable ASCII, the characters a header value may carry. *)
Definition header_safe (c : code_unit) : bool := (32 <=? c) && (c <=? 126).

(** What the Dropbox-API-Arg header holds for one code unit of the path:
    the escape of [JSON.stringify] followed by [escapeNonAscii]. *)
Definition header_unit (c : code_unit) : jsstring :=
  if c =? 8 then js "\b"
  else if c =? 9 then js "\t"
  else if c =? 10 then js "\n"
  else if c =? 12 then js "\f"
  else if c =? 13 then js "\r"
  else if c =? 34 then [BACKSLASH; DQUOTE]
  else if c =? 92 then [BACKSLASH; BACKSLASH]
  else if (c <? 32) || (127 <=? c) then js "\u" ++ hex4 c
  else [c].

(** The reading of the header rule in which every code unit outside
    printable ASCII becomes a numeric escape and the others are kept. *)
Definition numeric_escape_only (c : code_unit) : jsstring :=
  if header_safe c then [c] else js "\u" ++ hex4 c.

(** The text [{"path":"..."}] around an already escaped path. *)
Definition path_arg_json (escaped : jsstring) : jsstring :=
  js "{" ++ [DQUOTE] ++ js "path" ++ [DQUOTE] ++ js ":"
  ++ [DQUOTE] ++ escaped ++ [DQUOTE] ++ js "}".

(** Headers are looked up by name. *)
Fixpoint header_lookup (name : jsstring) (hs : list (jsstring * jsstring))
  : option jsstring :=
  match hs with
  | [] => None
  | (k, v) :: rest => if jsstring_eqb k name then Some v else header_lookup name rest
  end.

(** [haystack.includes(needle)] *)
Fixpoint starts_with (needle s : jsstring) : bool :=
  match needle, s with
  | [], _ => true
  | x :: needle', y :: s' => (x =? y) && starts_with needle' s'
  | _ :: _, [] => false
  end.
Fixpoint includes (needle s : jsstring) : bool :=
  starts_with needle s ||
  match s with
  | [] => false
  | _ :: s' => includes needle s'
  end.

(** The value of a decimal numeral. *)
Definition decimal_value (s : jsstring) : Z :=
  fold_left (fun v c => 10 * v + (c - 48)) s 0.

(** The [k] low digits of [n] in radix [r], most significant first, in
    front of [acc]. *)
Fixpoint low_digits (k : nat) (r n : Z) (acc : jsstring) : jsstring :=
  match k with
  | O => acc
  | S k' => low_digits k' r (n / r) (JS.digit_char (n mod r) :: acc)
  end.

(** The characters [generateFileName] replaces, and the replacement of
    one character. *)
Definition forbidden_chars : jsstring := js "/\?%*:|<>" ++ [DQUOTE].
Definition sanitize_char (c : code_unit) : code_unit :=
  if filename_forbidden c then 45 else c.

(** The file name with the digits of the timestamp written out. *)
Definition fileName_of (yyyy : jsstring) (now : LocalTime) (title : jsstring)
  : jsstring :=
  yyyy ++ two_digits (getMonth now + 1) ++ two_digits (getDate now)
  ++ two_digits (getHours now) ++ two_digits (getMinutes now)
  ++ js "-" ++ map sanitize_char title ++ js ".md".

(** [v.key] on the object literals of this program (their property names
    are distinct); [undefined] when there is no such property. *)
Fixpoint lookup_property (key : jsstring) (props : list (jsstring * jsval))
  : jsval :=
  match props with
  | [] => JUndefined
  | (k, x) :: rest =>
      if jsstring_eqb k key then x else lookup_property key rest
  end.
Definition property (v : jsval) (key : jsstring) : jsval :=
  match v with
  | JObj props => lookup_property key props
  | _ => JUndefined
  end.

(** A string is blank when it is empty or made of white space only. *)
Definition blank (s : jsstring) : bool := forallb JS.is_whitespace s.

(** A trimmed string is empty, or starts and ends with a character that
    is not white space. *)
Definition clean_edges (t : jsstring) : Prop :=
  t = [] \/
  (exists x r, t = x :: r /\ JS.is_whitespace x = false) /\
  (exists y r, rev t = y :: r /\ JS.is_whitespace y = false).

(** The object [{ configured, source }]. *)
Definition status_object (configured : bool) (source : jsstring) : jsval :=
  JObj [ (js "configured", JBool configured); (js "source", JStr source) ].


(** ** A sample configuration and a scripted token endpoint

    Concrete values at which the statements below are evaluated. *)
Module Sample.

Definition APP_KEY : jsstring := js "key".
Definition APP_SECRET : jsstring := js "secret".
Definition TOKEN_FILE_PATH : jsstring := js "/home/user/.dropbox_token".

(** Stand-ins for the two built-ins the statements do not depend on:
    the parameters joined by [&] and [=] without percent-encoding, and
    the length in code units. *)
Definition URLSearchParams_toString (params : list (jsstring * jsstring))
  : jsstring :=
  JSON.join (js "&") (map (fun kv => fst kv ++ js "=" ++ snd kv) params).
Definition Buffer_byteLength (s : jsstring) : Z := Z.of_nat (length s).

(** The body a token endpoint sends for the given tokens. *)
Definition token_body (access refresh : jsstring) : jsstring :=
  JSON.text_of (JSON.stringify
    (JObj [ (js "access_token", JStr access);
            (js "refresh_token", JStr refresh) ])).

(** A server that answers every request with status 200 and [body]. *)
Definition server (body : jsstring) : Request -> Incoming :=
  fun _ => ResponseEnd (Some 200) body.

(** A parser that knows the one body [token_body access refresh]. *)
Definition parse_TokenPair (access refresh : jsstring)
  : FromJSON TokenPair.t :=
  fun data =>
    if jsstring_eqb data (token_body access refresh)
    then Some (TokenPair.mk (Some access) (Some refresh))
    else None.
Definition parse_TokenResponse (access refresh : jsstring)
  : FromJSON TokenResponse.t :=
  fun data =>
    if jsstring_eqb data (token_body access refresh)
    then Some (TokenResponse.mk (Some access) None None (Some refresh))
    else None.

(** A parser for text bodies: nothing is valid JSON. *)
Definition parse_none {T : Type} : FromJSON T := fun _ => None.

(** No configuration at all, and two configured states. *)
Definition unconfigured : World := mkWorld None None.
Definition env_only : World := mkWorld (Some (js "tok")) None.
Definition blank_env_and_file : World :=
  mkWorld (Some (js " ")) (Some (js "tok")).
Definition blank_env_only : World := mkWorld (Some (js " ")) None.

(** The first minute of the year 10000. *)
Definition year_10000 : LocalTime := mkLocalTime 10000 0 1 0 0.
(** 2024-12-15 14:45. *)
Definition december_2024 : LocalTime := mkLocalTime 2024 11 15 14 45.

End Sample.

(** The exchange scenario: a token endpoint that returns the access
    token [x] and the given refresh token, and the tool called with the
    code [abc]. *)
Module Scenario.

Definition exchange (refresh : jsstring) (save : option bool)
  : M jsstring :=
  dropbox_auth_exchange_code
    (parse_TokenPair := Sample.parse_TokenPair (js "x") refresh)
    (Sample.server (Sample.token_body (js "x") refresh))
    Sample.APP_KEY Sample.APP_SECRET Sample.TOKEN_FILE_PATH
    Sample.URLSearchParams_toString Sample.Buffer_byteLength
    (js "abc") save.



End Scenario.

(* ================================================================== *)
(** * The rest of [index.ts] *)
(* ================================================================== *)

(** ** Start-up configuration *)

(** [process.env]: a variable is [None] when it is not set. *)
Definition ProcessEnv : Type := jsstring -> option jsstring.

(** What the process does to its host, besides the network and the
    token file: a line on the error stream, or a program run without a
    shell. *)
Inductive HostEffect : Type :=
| ConsoleError (line : jsstring)
| ExecFile (command : jsstring) (arguments : list jsstring).

(** The outcome of code that may end the process with [process.exit]. *)
Inductive startup (A : Type) : Type :=
| Started (a : A)
| Exited (code : Z) (stderr : list jsstring).
Arguments Started {A} a.
Arguments Exited {A} code stderr.

Definition requireEnv_lines : list jsstring :=
  [ js "Error: DROPBOX_APP_KEY and DROPBOX_APP_SECRET environment variables are required.";
    js "Please set them before starting the server." ].

Definition requireEnv (env : ProcessEnv) (name : jsstring) : startup jsstring :=
  match env name with
  | Some value =>
      if negb (truthy value) then Exited 1 requireEnv_lines else Started value
  | None => Exited 1 requireEnv_lines
  end.

Module Config.
Record t : Type := mk {
  APP_KEY : jsstring;
  APP_SECRET : jsstring;
  TOKEN_FILE_PATH : jsstring
}.
End Config.

(** The three constants at the top of the module, in the order they are
    evaluated.  [default_token_file] is the value of
    [path.join(os.homedir(), ".dropbox_token")]. *)
Definition load_config (env : ProcessEnv) (default_token_file : jsstring)
  : startup Config.t :=
  match requireEnv env (js "DROPBOX_APP_KEY") with
  | Exited code lines => Exited code lines
  | Started key =>
      match requireEnv env (js "DROPBOX_APP_SECRET") with
      | Exited code lines => Exited code lines
      | Started secret =>
          Started (Config.mk key secret
                     (match env (js "DROPBOX_TOKEN_FILE") with
                      | Some override => override
                      | None => default_token_file
                      end))
      end
  end.

(** ** Opening the browser *)

Definition open_manually (url : jsstring) : jsstring :=
  js "Please open this URL manually: " ++ url.

Section OpenBrowser.

(** [process.platform], and whether running a program succeeds. *)
Variable platform : jsstring.
Variable execFile_ok : jsstring -> list jsstring -> bool.

(** [openBrowser]: the effects it has, in order.  It never throws: every
    failure inside is caught and answered with a line on the error
    stream. *)
Definition openBrowser (url : jsstring) : list HostEffect :=
  if jsstring_eqb platform (js "darwin") then
    ExecFile (js "open") [url]
    :: (if execFile_ok (js "open") [url] then []
        else [ConsoleError (open_manually url)])
  else if jsstring_eqb platform (js "win32") then
    [ConsoleError (open_manually url)]
  else
    ExecFile (js "xdg-open") [url]
    :: (if execFile_ok (js "xdg-open") [url] then []
        else [ConsoleError (open_manually url)]).

End OpenBrowser.

(** ** Upload, and the remaining handlers *)

Section Upload.

Variable https_request : Request -> Incoming.
Variables APP_KEY APP_SECRET : jsstring.
Variable URLSearchParams_toString : list (jsstring * jsstring) -> jsstring.
Variable Buffer_byteLength : jsstring -> Z.
Context {parse_TokenResponse : FromJSON TokenResponse.t}.

(** The value the upload endpoint answers with, as the program holds it:
    whatever [JSON.parse] gave, or the body text.  The program only
    passes it to [JSON.stringify]. *)
Variable Metadata : Type.
Context {parse_Metadata : FromJSON Metadata}.
Context {cast_Metadata : FromText Metadata}.

(** The argument object of the upload endpoint. *)
Definition upload_arg (filePath : jsstring) : jsval :=
  JObj [ (js "path", JStr filePath);
         (js "mode", JStr (js "add"));
         (js "autorename", JBool true);
         (js "mute", JBool false) ].

Definition upload_headers (accessToken : option jsstring)
  (filePath : jsstring) : list (jsstring * jsstring) :=
  [ (js "Authorization", js "Bearer " ++ template_string accessToken);
    (js "Dropbox-API-Arg",
     escapeNonAscii (JSON.text_of (JSON.stringify (upload_arg filePath))));
    (js "Content-Type", js "application/octet-stream") ].

Definition uploadFile (filePath content : jsstring) : M Metadata :=
  let* accessToken :=
    getAccessToken https_request APP_KEY APP_SECRET URLSearchParams_toString
                   Buffer_byteLength in
  lift (makeRequest https_request (js "content.dropboxapi.com")
                    (js "/2/files/upload") (js "POST")
                    (upload_headers accessToken filePath) (Some content)).

End Upload.

(** ** The list of tools *)

Module Tool.
Record property : Type := mkProperty {
  property_name : jsstring;
  property_type : jsstring;
  property_description : jsstring
}.
Record t : Type := mk {
  name : jsstring;
  description : jsstring;
  properties : list property;
  (** [None] when the schema has no [required] entry *)
  required : option (list jsstring)
}.
End Tool.

(** The answer of the handler of [ListToolsRequestSchema]; every input
    schema has the type [object]. *)
Definition ListTools : list Tool.t :=
  [ Tool.mk (js "dropbox_auth_status")
      (js "Check whether Dropbox refresh token is configured (env or token file)")
      [] None;
    Tool.mk (js "dropbox_auth_get_url")
      (js "Get Dropbox OAuth authorization URL (optionally opens browser on the MCP host)")
      [ Tool.mkProperty (js "openBrowser") (js "boolean")
          (js "If true, attempt to open the authorization URL in a browser on the MCP host") ]
      None;
    Tool.mk (js "dropbox_auth_exchange_code")
      (js "Exchange an authorization code for tokens. Optionally save refresh token to token file.")
      [ Tool.mkProperty (js "authCode") (js "string")
          (js "Authorization code from Dropbox OAuth redirect");
        Tool.mkProperty (js "save") (js "boolean")
          (js "If true (default), save refresh token to token file for future use") ]
      (Some [js "authCode"]);
    Tool.mk (js "dropbox_download")
      (js "Download a file from Dropbox")
      [ Tool.mkProperty (js "filePath") (js "string")
          (js "The path to the file in Dropbox (e.g., /path/to/file.txt)") ]
      (Some [js "filePath"]);
    Tool.mk (js "dropbox_upload")
      (js "Upload a file to Dropbox")
      [ Tool.mkProperty (js "filePath") (js "string")
          (js "The destination path in Dropbox (e.g., /path/to/file.txt)");
        Tool.mkProperty (js "content") (js "string")
          (js "The content to upload") ]
      (Some [js "filePath"; js "content"]);
    Tool.mk (js "dropbox_generate_filename")
      (js "Generate a filename with timestamp prefix for Obsidian notes")
      [ Tool.mkProperty (js "title") (js "string")
          (js "The title for the note") ]
      (Some [js "title"]);
    Tool.mk (js "dropbox_list_folder")
      (js "List files and folders in a Dropbox directory")
      [ Tool.mkProperty (js "folderPath") (js "string")
          (js "The path to the folder in Dropbox (e.g., /path/to/folder)") ]
      (Some [js "folderPath"]) ].

(** ** The handler of tool calls *)

(** The arguments of a call, read at the types the handler casts them
    to. *)
Module Args.
Record t : Type := mk {
  openBrowser : option bool;
  authCode : jsstring;
  save : option bool;
  filePath : jsstring;
  content : jsstring;
  title : jsstring;
  folderPath : jsstring
}.
End Args.

Module CallToolRequest.
Record t : Type := mk {
  name : jsstring;
  arguments : Args.t
}.
End CallToolRequest.

(** The result of a call: the text of its one content item ([None] when
    the text is [undefined]) and the error flag. *)
Module ToolOutput.
Record t : Type := mk {
  text : option jsstring;
  isError : bool
}.
End ToolOutput.

Section CallTool.

Variable https_request : Request -> Incoming.
Variables APP_KEY APP_SECRET TOKEN_FILE_PATH : jsstring.
Variable URLSearchParams_toString : list (jsstring * jsstring) -> jsstring.
Variable Buffer_byteLength : jsstring -> Z.
Context {parse_TokenResponse : FromJSON TokenResponse.t}.
Context {parse_TokenPair : FromJSON TokenPair.t}.
Context {parse_ListFolder : FromJSON DropboxListFolderResponse}.
Context {parse_string : FromJSON jsstring}.
Variable Metadata : Type.
Context {parse_Metadata : FromJSON Metadata}.
Context {cast_Metadata : FromText Metadata}.

(** [JSON.stringify(v, null, 2)] on the values that come from the
    network: the upload result and the entries of a folder. *)
Variable stringify_Metadata : Metadata -> jsstring.
Variable stringify_entries : list DropboxEntry -> jsstring.

Variable platform : jsstring.
Variable execFile_ok : jsstring -> list jsstring -> bool.

(** What [new Date()] reads during the call. *)
Variable now : LocalTime.

(** [if (shouldOpenBrowser)] *)
Definition should_open (flag : option bool) : bool :=
  match flag with Some true => true | _ => false end.

Definition dropbox_auth_get_url (shouldOpenBrowser : option bool)
  : M (jsstring * list HostEffect) :=
  let url := getAuthUrl APP_KEY in
  ret (url,
       if should_open shouldOpenBrowser
       then openBrowser platform execFile_ok url
       else []).

Definition dropbox_upload (filePath content : jsstring) : M jsstring :=
  let* result :=
    uploadFile https_request APP_KEY APP_SECRET URLSearchParams_toString
               Buffer_byteLength Metadata filePath content in
  ret (stringify_Metadata result).

(** [JSON.stringify] of [undefined] is [undefined]. *)
Definition dropbox_list_folder (folderPath : jsstring)
  : M (option jsstring) :=
  let* entries :=
    listFolder https_request APP_KEY APP_SECRET URLSearchParams_toString
               Buffer_byteLength folderPath in
  ret (option_map stringify_entries entries).

(** A case that returns a text and has no effect on the host. *)
Definition text_only (handler : M jsstring)
  : M (option jsstring * list HostEffect) :=
  let* t := handler in ret (Some t, []).

(** The [switch] on the tool name. *)
Definition CallTool_switch (request : CallToolRequest.t)
  : M (option jsstring * list HostEffect) :=
  let name := CallToolRequest.name request in
  let args := CallToolRequest.arguments request in
  if jsstring_eqb name (js "dropbox_auth_status") then
    text_only (dropbox_auth_status TOKEN_FILE_PATH)
  else if jsstring_eqb name (js "dropbox_auth_get_url") then
    let* answer := dropbox_auth_get_url (Args.openBrowser args) in
    ret (Some (fst answer), snd answer)
  else if jsstring_eqb name (js "dropbox_auth_exchange_code") then
    text_only
      (dropbox_auth_exchange_code https_request APP_KEY APP_SECRET
         TOKEN_FILE_PATH URLSearchParams_toString Buffer_byteLength
         (Args.authCode args) (Args.save args))
  else if jsstring_eqb name (js "dropbox_download") then
    text_only
      (dropbox_download https_request APP_KEY APP_SECRET
         URLSearchParams_toString Buffer_byteLength (Args.filePath args))
  else if jsstring_eqb name (js "dropbox_upload") then
    text_only (dropbox_upload (Args.filePath args) (Args.content args))
  else if jsstring_eqb name (js "dropbox_generate_filename") then
    text_only (dropbox_generate_filename now (Args.title args))
  else if jsstring_eqb name (js "dropbox_list_folder") then
    let* t := dropbox_list_folder (Args.folderPath args) in
    ret (t, [])
  else
    throw (mkError (js "Unknown tool: " ++ name)).

(** The handler of [CallToolRequestSchema]: the [switch] inside
    [try]/[catch]. *)
Definition CallTool (request : CallToolRequest.t)
  : World -> ToolOutput.t * list HostEffect * World :=
  fun w =>
    match CallTool_switch request w with
    | (Returned (t, effects), w') => (ToolOutput.mk t false, effects, w')
    | (Thrown e, w') =>
        (ToolOutput.mk (Some (js "Error: " ++ message e)) true, [], w')
    end.

End CallTool.

(** ** Auxiliary definitions for the further properties *)

(** The value of a hexadecimal digit. *)
Definition hex_value (c : code_unit) : option Z :=
  if (48 <=? c) && (c <=? 57) then Some (c - 48)
  else if (97 <=? c) && (c <=? 102) then Some (c - 87)
  else None.

(** A reader of the escapes that [JSON.stringify] and [escapeNonAscii]
    write inside a string literal, used to show that the escaping loses
    nothing: outside an escape, after a backslash, or inside a numeric
    escape with some digits still to come. *)
Inductive unescape_state : Type :=
| Plain
| Escaped
| Hex (remaining : nat) (value : Z).

Fixpoint unescape (st : unescape_state) (s : jsstring) : option jsstring :=
  match s with
  | [] => match st with Plain => Some [] | _ => None end
  | c :: rest =>
      match st with
      | Plain =>
          if c =? 92 then unescape Escaped rest
          else option_map (cons c) (unescape Plain rest)
      | Escaped =>
          if c =? 98 then option_map (cons 8) (unescape Plain rest)
          else if c =? 116 then option_map (cons 9) (unescape Plain rest)
          else if c =? 110 then option_map (cons 10) (unescape Plain rest)
          else if c =? 102 then option_map (cons 12) (unescape Plain rest)
          else if c =? 114 then option_map (cons 13) (unescape Plain rest)
          else if c =? 34 then option_map (cons 34) (unescape Plain rest)
          else if c =? 92 then option_map (cons 92) (unescape Plain rest)
          else if c =? 117 then unescape (Hex 4 0) rest
          else None
      | Hex O _ => None
      | Hex (S k) v =>
          match hex_value c with
          | None => None
          | Some d =>
              match k with
              | O => option_map (cons (16 * v + d)) (unescape Plain rest)
              | S _ => unescape (Hex k (16 * v + d)) rest
              end
          end
      end
  end.

(** The text of the upload argument around an already escaped path. *)
Definition upload_arg_json (escaped : jsstring) : jsstring :=
  js "{" ++ [DQUOTE] ++ js "path" ++ [DQUOTE] ++ js ":"
  ++ [DQUOTE] ++ escaped ++ [DQUOTE] ++ js ","
  ++ [DQUOTE] ++ js "mode" ++ [DQUOTE] ++ js ":"
  ++ [DQUOTE] ++ js "add" ++ [DQUOTE] ++ js ","
  ++ [DQUOTE] ++ js "autorename" ++ [DQUOTE] ++ js ":true,"
  ++ [DQUOTE] ++ js "mute" ++ [DQUOTE] ++ js ":false}".

(** The code units [escapeNonAscii] keeps. *)
Definition below_127 (c : code_unit) : bool := c <? 127.

(** A decimal digit or the minus sign. *)
Definition is_digit_or_dash (c : code_unit) : Prop :=
  c = 45 \/ 48 <= c <= 57.

(** No refresh token is configured: the environment entry is unset or
    empty and the token file is missing or blank. *)
Definition not_configured (w : World) : Prop :=
  truthy_opt (env_DROPBOX_REFRESH_TOKEN w) = false
  /\ forall content, token_file w = Some content -> blank content = true.

(** ** Fixtures for the further properties *)
Module Fixture.

(** A network that is down, and one that answers every request with the
    given status and body. *)
Definition offline : Request -> Incoming :=
  fun _ => RequestError (mkError (js "offline")).
Definition answers (code : Z) (body : jsstring) : Request -> Incoming :=
  fun _ => ResponseEnd (Some code) body.

(** The token endpoint of [Sample], which returns the access token [x]. *)
Definition token_server : Request -> Incoming :=
  Sample.server (Sample.token_body (js "x") (js "tok")).
Definition parse_token : FromJSON TokenResponse.t :=
  Sample.parse_TokenResponse (js "x") (js "tok").

(** A path with one letter outside ASCII. *)
Definition cafe : jsstring := js "/caf" ++ [233].

Definition get_url_request : CallToolRequest.t :=
  CallToolRequest.mk (js "dropbox_auth_get_url")
    (Args.mk (Some true) [] None [] [] [] []).

(** The handler of tool calls on a Linux host whose programs run, with
    the network down. *)
Definition CallTool_offline (request : CallToolRequest.t)
  : World -> ToolOutput.t * list HostEffect * World :=
  CallTool (parse_TokenResponse := Sample.parse_none)
           (parse_TokenPair := Sample.parse_none)
           (parse_ListFolder := Sample.parse_none)
           (parse_string := Sample.parse_none)
           (parse_Metadata := Sample.parse_none)
           (cast_Metadata := text_as_string)
           offline Sample.APP_KEY Sample.APP_SECRET Sample.TOKEN_FILE_PATH
           Sample.URLSearchParams_toString Sample.Buffer_byteLength
           jsstring (fun text => text) (fun _ => js "[]")
           (js "linux") (fun _ _ => true) Sample.december_2024 request.

(** An environment with the key and the secret, and one without the
    secret. *)
Definition env_complete : ProcessEnv :=
  fun name =>
    if jsstring_eqb name (js "DROPBOX_APP_KEY") then Some (js "key")
    else if jsstring_eqb name (js "DROPBOX_APP_SECRET") then Some (js "secret")
    else None.
Definition env_without_secret : ProcessEnv :=
  fun name =>
    if jsstring_eqb name (js "DROPBOX_APP_KEY") then Some (js "key")
    else None.

End Fixture.

(* ================================================================== *)
(** * Properties *)
(* ================================================================== *)

(** ** Strings *)

Lemma jsstring_eqb_eq (a b : jsstring) : jsstring_eqb a b = true <-> a = b.
Proof.
  revert b; induction a as [|x a IH]; intros [|y b]; simpl; split; intro E;
    try reflexivity; try discriminate.
  - apply andb_true_iff in E as [Exy Eab].
    apply Z.eqb_eq in Exy. apply IH in Eab. now subst.
  - injection E as -> ->. apply andb_true_iff; split.
    + apply Z.eqb_refl.
    + now apply IH.
Qed.

Lemma jsstring_eqb_refl (a : jsstring) : jsstring_eqb a a = true.
Proof. now apply jsstring_eqb_eq. Qed.

(** ** Numerals *)

Lemma decimal_value_snoc (ds : jsstring) (c : code_unit) :
  decimal_value (ds ++ [c]) = 10 * decimal_value ds + (c - 48).
Proof. unfold decimal_value. rewrite fold_left_app. reflexivity. Qed.

Lemma digit_char_decimal (d : Z) : 0 <= d < 10 -> JS.digit_char d = 48 + d.
Proof.
  intro Hd. unfold JS.digit_char.
  now replace (d <? 10) with true by (symmetry; apply Z.ltb_lt; lia).
Qed.

(** With enough fuel the digit loop stops after the last digit: a number
    below [r ^ (k + 1)], and not below [r ^ k] unless [k] is zero, has
    its [k + 1] low digits written. *)
Lemma digits_aux_low_digits (r : Z) (k : nat) :
  2 <= r ->
  forall (fuel : nat) (n : Z) (acc : jsstring),
    (S k <= fuel)%nat -> 0 <= n < r ^ (Z.of_nat (S k)) ->
    (k <> O -> r ^ (Z.of_nat k) <= n) ->
    JS.digits_aux fuel r n acc = low_digits (S k) r n acc.
Proof.
  intro Hr. induction k as [|k IH]; intros fuel n acc Hfuel Hn Hlow.
  - destruct fuel as [|fuel]; [lia|]. cbn [JS.digits_aux low_digits].
    change (Z.of_nat 1) with 1 in Hn. rewrite Z.pow_1_r in Hn.
    rewrite Z.div_small by lia. reflexivity.
  - destruct fuel as [|fuel]; [lia|].
    assert (Hpow : r ^ Z.of_nat (S (S k)) = r * r ^ Z.of_nat (S k)).
    { rewrite <- Z.pow_succ_r by lia. f_equal. lia. }
    assert (Hpow' : r ^ Z.of_nat (S k) = r * r ^ Z.of_nat k).
    { rewrite <- Z.pow_succ_r by lia. f_equal. lia. }
    assert (Hpos : 0 < r ^ Z.of_nat k) by (apply Z.pow_pos_nonneg; lia).
    specialize (Hlow ltac:(discriminate)).
    assert (Hq : r ^ Z.of_nat k <= n / r < r ^ Z.of_nat (S k)).
    { split.
      - apply Z.div_le_lower_bound; lia.
      - apply Z.div_lt_upper_bound; lia. }
    cbn [JS.digits_aux].
    destruct (Z.eqb_spec (n / r) 0) as [Hz|_]; [lia|].
    rewrite (IH fuel (n / r)); [reflexivity|lia|lia|intros _; lia].
Qed.

(** The fuel [Number_toString] gives the loop is enough. *)
Lemma Number_toString_low_digits (r : Z) (k : nat) (n : Z) :
  2 <= r -> 0 <= n < r ^ (Z.of_nat (S k)) ->
  (k <> O -> r ^ (Z.of_nat k) <= n) ->
  JS.Number_toString r n = low_digits (S k) r n [].
Proof.
  intros Hr Hn Hlow. unfold JS.Number_toString, JS.digits_fuel.
  replace (n <? 0) with false by (symmetry; apply Z.ltb_ge; lia).
  apply digits_aux_low_digits; try assumption.
  destruct k as [|k]; [lia|]. specialize (Hlow ltac:(discriminate)).
  assert (Hpos : 0 < n).
  { assert (0 < r ^ Z.of_nat (S k)) by (apply Z.pow_pos_nonneg; lia). lia. }
  assert (Hlog : Z.of_nat (S k) <= Z.log2 n).
  { apply Z.log2_le_pow2; [lia|].
    transitivity (r ^ Z.of_nat (S k)); [|exact Hlow].
    apply Z.pow_le_mono_l. lia. }
  lia.
Qed.

(** The loop puts a decimal numeral of [n] in front of the accumulator. *)
Lemma digits_aux_decimal (fuel : nat) :
  forall (n : Z) (acc : jsstring),
    0 <= n < 2 ^ (Z.of_nat fuel + 1) ->
    exists ds, JS.digits_aux (S fuel) 10 n acc = ds ++ acc
               /\ ds <> [] /\ decimal_value ds = n.
Proof.
  induction fuel as [|fuel IH]; intros n acc Hn.
  - change (2 ^ (Z.of_nat 0 + 1)) with 2 in Hn.
    assert (Hcases : n = 0 \/ n = 1) by lia.
    destruct Hcases as [-> | ->].
    + exists (js "0"). repeat split; discriminate.
    + exists (js "1"). repeat split; discriminate.
  - cbn [JS.digits_aux].
    assert (Hmod : 0 <= n mod 10 < 10) by (apply Z.mod_pos_bound; lia).
    pose proof (digit_char_decimal (n mod 10) Hmod) as Hdigit.
    destruct (Z.eqb_spec (n / 10) 0) as [Hsmall|Hbig].
    + exists [JS.digit_char (n mod 10)].
      repeat split; [discriminate|].
      rewrite Hdigit. unfold decimal_value; cbn [fold_left].
      pose proof (Z.div_mod n 10). lia.
    + assert (Hpow : 2 ^ (Z.of_nat (S fuel) + 1) = 2 * 2 ^ (Z.of_nat fuel + 1)).
      { rewrite <- Z.pow_succ_r by lia. f_equal. lia. }
      assert (Hq : 0 <= n / 10 < 2 ^ (Z.of_nat fuel + 1)).
      { split; [apply Z.div_pos; lia|].
        apply Z.div_lt_upper_bound; lia. }
      destruct (IH (n / 10) (JS.digit_char (n mod 10) :: acc) Hq)
        as (ds & Heq & Hne & Hval).
      exists (ds ++ [JS.digit_char (n mod 10)]).
      repeat split.
      * rewrite <- app_assoc. exact Heq.
      * intro Habs. now apply app_eq_nil in Habs as [_ Habs].
      * rewrite decimal_value_snoc, Hval, Hdigit.
        pose proof (Z.div_mod n 10). lia.
Qed.

(** [String(n)] of a natural number is a decimal numeral of it. *)
Lemma String_of_number_value (n : Z) :
  0 <= n -> JS.String_of_number n <> [] /\
            decimal_value (JS.String_of_number n) = n.
Proof.
  intro Hn. unfold JS.String_of_number, JS.Number_toString, JS.digits_fuel.
  replace (n <? 0) with false by (symmetry; apply Z.ltb_ge; lia).
  destruct (digits_aux_decimal (Z.to_nat (Z.log2 n)) n []) as (ds & Heq & Hne & Hval).
  - split; [lia|].
    rewrite Z2Nat.id by apply Z.log2_nonneg.
    destruct (Z.eq_dec n 0) as [->|Hpos]; [reflexivity|].
    replace (Z.log2 n + 1) with (Z.succ (Z.log2 n)) by lia.
    apply Z.log2_spec. lia.
  - rewrite Heq, app_nil_r. split; assumption.
Qed.

Lemma padStart_two_digits (n : Z) :
  0 <= n <= 99 ->
  JS.String_padStart 2 (js "0") (JS.String_of_number n) = two_digits n.
Proof.
  intro Hn. unfold JS.String_of_number, two_digits.
  destruct (Z.ltb_spec n 10) as [Hone|Htwo].
  - rewrite (Number_toString_low_digits 10 0 n) by (simpl; lia || congruence).
    cbn [low_digits]. rewrite (Z.div_small n 10) by lia.
    rewrite digit_char_decimal by (apply Z.mod_pos_bound; lia).
    reflexivity.
  - rewrite (Number_toString_low_digits 10 1 n) by (simpl; lia).
    cbn [low_digits].
    rewrite !digit_char_decimal by (apply Z.mod_pos_bound; lia).
    reflexivity.
Qed.

Lemma String_of_number_four_digits (n : Z) :
  1000 <= n <= 9999 -> JS.String_of_number n = four_digits n.
Proof.
  intro Hn. unfold JS.String_of_number, four_digits.
  rewrite (Number_toString_low_digits 10 3 n) by (simpl; lia).
  cbn [low_digits].
  rewrite !digit_char_decimal by (apply Z.mod_pos_bound; lia).
  rewrite !Z.div_div by lia. reflexivity.
Qed.

(** The hexadecimal numeral of a code unit is [hex4] without its leading
    zeros. *)
Lemma Number_toString_16_cases (c : code_unit) :
  is_code_unit c ->
  exists zeros ds,
    JS.Number_toString 16 c = ds /\ hex4 c = zeros ++ ds /\
    (zeros = [] /\ length ds = 4%nat \/
     zeros = [48] /\ length ds = 3%nat \/
     zeros = [48; 48] /\ length ds = 2%nat \/
     zeros = [48; 48; 48] /\ length ds = 1%nat).
Proof.
  intros [Hlo Hhi]. unfold hex4.
  assert (H256 : c / 16 / 16 = c / 256)
    by (rewrite Z.div_div by lia; reflexivity).
  assert (H4096 : c / 16 / 16 / 16 = c / 4096)
    by (rewrite !Z.div_div by lia; reflexivity).
  destruct (Z.ltb_spec c 16) as [H1|H1];
    [|destruct (Z.ltb_spec c 256) as [H2|H2];
      [|destruct (Z.ltb_spec c 4096) as [H3|H3]]].
  - exists [48; 48; 48], (low_digits 1 16 c []).
    split; [apply Number_toString_low_digits; [lia|simpl; lia|congruence]|].
    rewrite (Z.div_small c 4096), (Z.div_small c 256), (Z.div_small c 16)
      by lia.
    split; [reflexivity|]. auto.
  - exists [48; 48], (low_digits 2 16 c []).
    split; [apply Number_toString_low_digits; [lia|simpl; lia|simpl; lia]|].
    rewrite (Z.div_small c 4096), (Z.div_small c 256) by lia.
    split; [reflexivity|]. auto.
  - exists [48], (low_digits 3 16 c []).
    split; [apply Number_toString_low_digits; [lia|simpl; lia|simpl; lia]|].
    rewrite (Z.div_small c 4096) by lia.
    split; [cbn [low_digits]; rewrite H256; reflexivity|]. auto.
  - exists [], (low_digits 4 16 c []).
    split; [apply Number_toString_low_digits; [lia|simpl; lia|simpl; lia]|].
    split; [cbn [low_digits]; rewrite H4096, H256; reflexivity|]. auto.
Qed.

(** Both ways of padding the numeral to four digits give [hex4]: the one
    of [escapeNonAscii] and the one of [JSON.stringify]. *)
Lemma hex4_padding (c : code_unit) :
  is_code_unit c ->
  JS.String_slice_last 4 (js "0000" ++ JS.Number_toString 16 c) = hex4 c
  /\ JS.String_padStart 4 (js "0") (JS.Number_toString 16 c) = hex4 c.
Proof.
  intro Hc.
  destruct (Number_toString_16_cases c Hc) as (zeros & ds & -> & -> & Hcases).
  destruct Hcases as [[-> Hlen] | [[-> Hlen] | [[-> Hlen] | [-> Hlen]]]];
    repeat (destruct ds as [|? ds]; try discriminate Hlen);
    split; reflexivity.
Qed.

Lemma hex4_safe (c : code_unit) : forallb header_safe (hex4 c) = true.
Proof.
  assert (Hdigit : forall d, 0 <= d < 16 -> header_safe (JS.digit_char d) = true).
  { intros d Hd. unfold header_safe, JS.digit_char.
    destruct (Z.ltb_spec d 10); apply andb_true_iff; split;
      apply Z.leb_le; lia. }
  unfold hex4. cbn [forallb].
  rewrite !Hdigit by (apply Z.mod_pos_bound; lia). reflexivity.
Qed.

(** ** Escaping for the argument header *)

Lemma escapeNonAscii_app (a b : jsstring) :
  escapeNonAscii (a ++ b) = escapeNonAscii a ++ escapeNonAscii b.
Proof. unfold escapeNonAscii, JS.String_replace_class. apply flat_map_app. Qed.

Lemma escape_replacer_hex4 (c : code_unit) :
  is_code_unit c -> escape_replacer c = js "\u" ++ hex4 c.
Proof.
  intro Hc. unfold escape_replacer.
  now rewrite (proj1 (hex4_padding c Hc)).
Qed.

Lemma UnicodeEscape_hex4 (c : code_unit) :
  is_code_unit c -> JS.UnicodeEscape c = js "\u" ++ hex4 c.
Proof.
  intro Hc. unfold JS.UnicodeEscape.
  now rewrite (proj2 (hex4_padding c Hc)).
Qed.

(** Header-safe text has nothing for [escapeNonAscii] to replace. *)
Lemma escapeNonAscii_safe (s : jsstring) :
  forallb header_safe s = true -> escapeNonAscii s = s.
Proof.
  unfold escapeNonAscii, JS.String_replace_class.
  induction s as [|c s IH]; [reflexivity|].
  cbn [forallb flat_map]. intro H.
  apply andb_true_iff in H as [Hc Hs]. rewrite (IH Hs).
  unfold header_safe in Hc. apply andb_true_iff in Hc as [_ Hc].
  apply Z.leb_le in Hc. unfold non_ascii_class.
  replace (127 <=? c) with false by (symmetry; apply Z.leb_gt; lia).
  reflexivity.
Qed.

Lemma numeric_escape_safe (c : code_unit) :
  forallb header_safe (js "\u" ++ hex4 c) = true.
Proof. rewrite forallb_app, hex4_safe. reflexivity. Qed.

Lemma escapeNonAscii_high_unit (c : code_unit) :
  is_code_unit c -> non_ascii_class c = true ->
  escapeNonAscii [c] = header_unit c.
Proof.
  intros Hc Hhigh.
  unfold escapeNonAscii, JS.String_replace_class. cbn [flat_map].
  rewrite Hhigh, app_nil_r, (escape_replacer_hex4 c Hc).
  unfold non_ascii_class in Hhigh. apply andb_true_iff in Hhigh as [Hlo _].
  apply Z.leb_le in Hlo. unfold header_unit.
  repeat match goal with
         | |- context [c =? ?b] => destruct (Z.eqb_spec c b); [lia|]
         end.
  replace (127 <=? c) with true by (symmetry; apply Z.leb_le; lia).
  now rewrite orb_true_r.
Qed.

Lemma surrogates_are_high (c : code_unit) :
  JS.is_leading_surrogate c = true \/ JS.is_trailing_surrogate c = true ->
  non_ascii_class c = true.
Proof.
  unfold JS.is_leading_surrogate, JS.is_trailing_surrogate, non_ascii_class.
  intros [H|H]; apply andb_true_iff in H as [H1 H2];
    apply andb_true_iff; split; apply Z.leb_le;
    apply Z.leb_le in H1; apply Z.leb_le in H2; lia.
Qed.

Lemma escapeNonAscii_quote_unit (c : code_unit) :
  is_code_unit c -> escapeNonAscii (JS.quote_unit c) = header_unit c.
Proof.
  intro Hc. unfold JS.quote_unit, header_unit.
  repeat match goal with
         | |- context [c =? ?b] =>
             destruct (Z.eqb_spec c b); [reflexivity|]
         end.
  destruct ((c <? 32) || JS.is_leading_surrogate c
            || JS.is_trailing_surrogate c) eqn:Hescape.
  - rewrite (UnicodeEscape_hex4 c Hc),
            (escapeNonAscii_safe _ (numeric_escape_safe c)).
    replace ((c <? 32) || (127 <=? c)) with true; [reflexivity|].
    symmetry. apply orb_true_iff.
    apply orb_true_iff in Hescape as [Hescape|Htrail].
    + apply orb_true_iff in Hescape as [Hlow|Hlead]; [now left|].
      right. pose proof (surrogates_are_high c (or_introl Hlead)) as Hhigh.
      unfold non_ascii_class in Hhigh. now apply andb_true_iff in Hhigh.
    + right. pose proof (surrogates_are_high c (or_intror Htrail)) as Hhigh.
      unfold non_ascii_class in Hhigh. now apply andb_true_iff in Hhigh.
  - apply orb_false_iff in Hescape as [Hescape _].
    apply orb_false_iff in Hescape as [Hlow _]. rewrite Hlow. cbn [orb].
    destruct (127 <=? c) eqn:Hhigh.
    + rewrite (escapeNonAscii_high_unit c Hc).
      * unfold header_unit.
        repeat match goal with
               | |- context [c =? ?b] =>
                   destruct (Z.eqb_spec c b); [contradiction|]
               end.
        now rewrite Hlow, Hhigh.
      * unfold non_ascii_class. rewrite Hhigh.
        destruct Hc as [_ Hc]. now apply Z.leb_le in Hc as ->.
    + apply escapeNonAscii_safe. cbn [forallb]. unfold header_safe.
      apply Z.ltb_ge in Hlow. apply Z.leb_gt in Hhigh.
      replace (32 <=? c) with true by (symmetry; apply Z.leb_le; lia).
      replace (c <=? 126) with true by (symmetry; apply Z.leb_le; lia).
      reflexivity.
Qed.

Lemma header_unit_safe (c : code_unit) :
  is_code_unit c -> forallb header_safe (header_unit c) = true.
Proof.
  intro Hc. unfold header_unit.
  repeat match goal with
         | |- context [c =? ?b] =>
             destruct (Z.eqb_spec c b); [reflexivity|]
         end.
  destruct ((c <? 32) || (127 <=? c)) eqn:Hescape.
  - apply numeric_escape_safe.
  - apply orb_false_iff in Hescape as [Hlow Hhigh].
    apply Z.ltb_ge in Hlow. apply Z.leb_gt in Hhigh.
    cbn [forallb]. unfold header_safe.
    replace (32 <=? c) with true by (symmetry; apply Z.leb_le; lia).
    replace (c <=? 126) with true by (symmetry; apply Z.leb_le; lia).
    reflexivity.
Qed.

(** [JSON.stringify] followed by [escapeNonAscii] acts on every code unit
    on its own: the pairing of surrogates in [JSON.stringify] makes no
    difference once [escapeNonAscii] has run. *)
Lemma escapeNonAscii_quote_units (s : jsstring) :
  wf_jsstring s ->
  escapeNonAscii (JS.quote_units s) = flat_map header_unit s.
Proof.
  remember (length s) as n eqn:En.
  revert s En. induction n as [n IH] using lt_wf_ind.
  intros [|c rest] En Hwf; [reflexivity|].
  apply Forall_cons_iff in Hwf as [Hc Hrest].
  simpl in En.
  assert (Hstep : escapeNonAscii (JS.quote_unit c ++ JS.quote_units rest)
                  = flat_map header_unit (c :: rest)).
  { rewrite escapeNonAscii_app, (escapeNonAscii_quote_unit c Hc).
    simpl. f_equal. apply (IH (length rest)); [lia|reflexivity|exact Hrest]. }
  simpl JS.quote_units.
  destruct (JS.is_leading_surrogate c) eqn:Hlead; [|exact Hstep].
  destruct rest as [|d rest'].
  - rewrite (escapeNonAscii_quote_unit c Hc). simpl. now rewrite app_nil_r.
  - destruct (JS.is_trailing_surrogate d) eqn:Htrail; [|exact Hstep].
    apply Forall_cons_iff in Hrest as [Hd Hrest'].
    change (c :: d :: JS.quote_units rest')
      with ([c] ++ [d] ++ JS.quote_units rest').
    rewrite !escapeNonAscii_app.
    rewrite (escapeNonAscii_high_unit c Hc),
            (escapeNonAscii_high_unit d Hd)
      by (apply surrogates_are_high; auto).
    simpl flat_map. do 2 f_equal.
    apply (IH (length rest')); [simpl in En; lia|reflexivity|exact Hrest'].
Qed.

Lemma header_units_safe (s : jsstring) :
  wf_jsstring s -> forallb header_safe (flat_map header_unit s) = true.
Proof.
  induction 1 as [|c rest Hc _ IH]; [reflexivity|].
  simpl. rewrite forallb_app, (header_unit_safe c Hc), IH. reflexivity.
Qed.

Lemma stringify_download_arg (filePath : jsstring) :
  JSON.text_of (JSON.stringify (download_arg filePath))
  = js "{" ++ JS.QuoteJSONString (js "path") ++ js ":"
    ++ JS.QuoteJSONString filePath ++ js "}".
Proof. reflexivity. Qed.

Lemma download_header_value (accessToken : option jsstring)
  (filePath : jsstring) :
  wf_jsstring filePath ->
  header_lookup (js "Dropbox-API-Arg") (download_headers accessToken filePath)
  = Some (path_arg_json (flat_map header_unit filePath)).
Proof.
  intro Hwf. unfold download_headers.
  cbn [header_lookup].
  replace (jsstring_eqb (js "Authorization") (js "Dropbox-API-Arg"))
    with false by reflexivity.
  rewrite jsstring_eqb_refl. f_equal.
  rewrite stringify_download_arg.
  unfold JS.QuoteJSONString.
  rewrite !escapeNonAscii_app.
  change (escapeNonAscii (DQUOTE :: JS.quote_units filePath ++ [DQUOTE]))
    with (DQUOTE :: escapeNonAscii (JS.quote_units filePath ++ [DQUOTE])).
  rewrite !escapeNonAscii_app, (escapeNonAscii_quote_units filePath Hwf).
  unfold path_arg_json. cbn. rewrite <- !app_assoc. reflexivity.
Qed.

Lemma path_arg_json_safe (escaped : jsstring) :
  forallb header_safe escaped = true ->
  forallb header_safe (path_arg_json escaped) = true.
Proof.
  intro H. unfold path_arg_json.
  rewrite !forallb_app, H. reflexivity.
Qed.

Section DownloadOperation.

Variable https_request : Request -> Incoming.
Variables APP_KEY APP_SECRET : jsstring.
Variable URLSearchParams_toString : list (jsstring * jsstring) -> jsstring.
Variable Buffer_byteLength : jsstring -> Z.
Context {parse_TokenResponse : FromJSON TokenResponse.t}.
Context {parse_string : FromJSON jsstring}.

(** The one request [downloadFile] sends once it has an access token. *)
Lemma downloadFile_request (filePath : jsstring) (w w' : World)
  (accessToken : option jsstring) :
  getAccessToken https_request APP_KEY APP_SECRET URLSearchParams_toString
                 Buffer_byteLength w = (Returned accessToken, w') ->
  downloadFile https_request APP_KEY APP_SECRET URLSearchParams_toString
               Buffer_byteLength filePath w
  = (makeRequest https_request (js "content.dropboxapi.com")
       (js "/2/files/download") (js "POST")
       (download_headers accessToken filePath) None, w').
Proof.
  intro Htoken. unfold downloadFile, bind. rewrite Htoken. reflexivity.
Qed.

(** C1 (as amended).  For every path made of code units, the
    Dropbox-API-Arg header of the download request is the text
    [{"path":"..."}] in which every code unit of the path from U+007F up
    is a backslash, [u] and its four lower-case hexadecimal digits, the
    control characters below U+0020 are escaped as [JSON.stringify]
    escapes them (backspace, tab, line feed, form feed and carriage
    return by their two-character escape, the others by the numeric
    escape), double quote and backslash are preceded by a backslash, and
    every other printable ASCII character is unchanged; the header value
    holds printable ASCII only. *)
Theorem download_header_escaping (filePath : jsstring) (w w' : World)
  (accessToken : option jsstring) :
  wf_jsstring filePath ->
  getAccessToken https_request APP_KEY APP_SECRET URLSearchParams_toString
                 Buffer_byteLength w = (Returned accessToken, w') ->
  let sent := download_headers accessToken filePath in
  fst (downloadFile https_request APP_KEY APP_SECRET URLSearchParams_toString
                    Buffer_byteLength filePath w)
  = makeRequest https_request (js "content.dropboxapi.com")
      (js "/2/files/download") (js "POST") sent None
  /\ header_lookup (js "Dropbox-API-Arg") sent
     = Some (path_arg_json (flat_map header_unit filePath))
  /\ forallb header_safe (path_arg_json (flat_map header_unit filePath)) = true
  /\ (forall c, 127 <= c <= 65535 -> header_unit c = js "\u" ++ hex4 c)
  /\ (forall c, 0 <= c < 32 ->
        header_unit c =
          if c =? 8 then js "\b" else if c =? 9 then js "\t"
          else if c =? 10 then js "\n" else if c =? 12 then js "\f"
          else if c =? 13 then js "\r" else js "\u" ++ hex4 c)
  /\ header_unit DQUOTE = [BACKSLASH; DQUOTE]
  /\ header_unit BACKSLASH = [BACKSLASH; BACKSLASH]
  /\ (forall c, 32 <= c <= 126 -> c <> DQUOTE -> c <> BACKSLASH ->
        header_unit c = [c]).
Proof.
  intros Hwf Htoken sent. repeat split.
  - rewrite (downloadFile_request filePath w w' accessToken Htoken).
    reflexivity.
  - apply download_header_value, Hwf.
  - apply path_arg_json_safe, header_units_safe, Hwf.
  - intros c Hc. unfold header_unit.
    repeat match goal with
           | |- context [?a =? ?b] =>
               destruct (Z.eqb_spec a b); [lia|]
           end.
    replace (127 <=? c) with true by (symmetry; apply Z.leb_le; lia).
    now rewrite orb_true_r.
  - intros c Hc. unfold header_unit.
    repeat match goal with
           | |- context [?a =? ?b] =>
               destruct (Z.eqb_spec a b); [reflexivity || lia|]
           end.
    replace (c <? 32) with true by (symmetry; apply Z.ltb_lt; lia).
    reflexivity.
  - intros c Hc Hq Hb. unfold DQUOTE, BACKSLASH in *. unfold header_unit.
    repeat match goal with
           | |- context [?a =? ?b] =>
               destruct (Z.eqb_spec a b); [lia|]
           end.
    replace (c <? 32) with false by (symmetry; apply Z.ltb_ge; lia).
    replace (127 <=? c) with false by (symmetry; apply Z.leb_gt; lia).
    reflexivity.
Qed.

End DownloadOperation.

(** ** File names *)

Lemma replace_class_by_char (class : code_unit -> bool) (x : code_unit)
  (s : jsstring) :
  JS.String_replace_class class (fun _ => [x]) s
  = map (fun c => if class c then x else c) s.
Proof.
  unfold JS.String_replace_class.
  induction s as [|c s IH]; [reflexivity|].
  simpl. rewrite IH. now destruct (class c).
Qed.

Lemma filename_forbidden_iff (c : code_unit) :
  filename_forbidden c = true <-> In c forbidden_chars.
Proof.
  unfold filename_forbidden, forbidden_chars. cbn [js app In].
  change (unit_of_ascii "/") with 47. change (unit_of_ascii "\") with 92.
  change (unit_of_ascii "?") with 63. change (unit_of_ascii "%") with 37.
  change (unit_of_ascii "*") with 42. change (unit_of_ascii ":") with 58.
  change (unit_of_ascii "|") with 124. change (unit_of_ascii "<") with 60.
  change (unit_of_ascii ">") with 62. unfold DQUOTE.
  rewrite !orb_true_iff, !Z.eqb_eq. intuition lia.
Qed.

Lemma generateFileName_unfold (now : LocalTime) (title : jsstring) :
  valid_LocalTime now ->
  generateFileName now title
  = fileName_of (JS.String_of_number (getFullYear now)) now title.
Proof.
  intros (Hmonth & Hdate & Hhours & Hminutes).
  unfold generateFileName, fileName_of.
  rewrite !padStart_two_digits by lia.
  change (js "-") with [45] at 1.
  rewrite (replace_class_by_char filename_forbidden 45).
  rewrite <- !app_assoc. reflexivity.
Qed.

(** C2 (as amended).  At every local time [now] and for every title,
    [generateFileName] returns the year of [now] in decimal without
    padding, which is four digits exactly for the years 1000 to 9999,
    then the month, day, hour and minute of [now] with two digits each,
    a dash, the title in which each of the ten characters slash,
    backslash, question mark, percent, star, colon, bar, double quote,
    less-than and greater-than is replaced by a dash and no other
    character is changed, and [.md]. *)
Theorem generateFileName_shape (now : LocalTime) (title : jsstring) :
  valid_LocalTime now ->
  generateFileName now title
  = fileName_of (JS.String_of_number (getFullYear now)) now title
  /\ (0 <= getFullYear now ->
      decimal_value (JS.String_of_number (getFullYear now)) = getFullYear now)
  /\ (1000 <= getFullYear now <= 9999 ->
      generateFileName now title
      = fileName_of (four_digits (getFullYear now)) now title)
  /\ (forall c, In c forbidden_chars -> sanitize_char c = 45)
  /\ (forall c, ~ In c forbidden_chars -> sanitize_char c = c).
Proof.
  intro Hvalid. repeat split.
  - apply generateFileName_unfold, Hvalid.
  - intro Hyear. apply String_of_number_value, Hyear.
  - intro Hyear. rewrite (generateFileName_unfold now title Hvalid).
    now rewrite String_of_number_four_digits.
  - intros c Hc. unfold sanitize_char.
    apply filename_forbidden_iff in Hc. now rewrite Hc.
  - intros c Hc. unfold sanitize_char.
    destruct (filename_forbidden c) eqn:E; [|reflexivity].
    apply filename_forbidden_iff in E. contradiction.
Qed.

(** ** HTTP client *)

Lemma status_is_success_iff (code : Z) :
  status_is_success (Some code) = true <-> 200 <= code < 300.
Proof.
  unfold status_is_success.
  rewrite !andb_true_iff, negb_true_iff, Z.eqb_neq, Z.leb_le, Z.ltb_lt. lia.
Qed.

(** C3.  When the response has arrived in full with status [code] and
    body [data]: for a status in [200, 300) the call resolves with the
    parsed value when the body is valid JSON and with the body text when
    it is not; for any other status it fails with an error whose message
    carries the status, in decimal, and the body text. *)
Theorem makeRequest_classifies_response
  {T : Type} {parse : FromJSON T} {cast : FromText T}
  (https_request : Request -> Incoming)
  (hostname path method : jsstring) (headers : list (jsstring * jsstring))
  (body : option jsstring) (code : Z) (data : jsstring) :
  https_request (mkRequest hostname path method headers
                           (if truthy_opt body then body else None))
  = ResponseEnd (Some code) data ->
  let call := makeRequest https_request hostname path method headers body in
  (200 <= code < 300 ->
   forall v : T, JSON_parse data = Some v -> call = Returned v)
  /\ (200 <= code < 300 ->
      JSON_parse (T := T) data = None -> call = Returned (text_as data))
  /\ (~ (200 <= code < 300) ->
      call = Thrown (mkError (js "Request failed: " ++ JS.String_of_number code
                              ++ js " - " ++ data)))
  /\ (0 <= code -> decimal_value (JS.String_of_number code) = code).
Proof.
  intros Hresponse call. subst call. unfold makeRequest.
  rewrite Hresponse. unfold makeRequest_on_end.
  repeat split.
  - intros Hcode v Hparse.
    apply status_is_success_iff in Hcode. now rewrite Hcode, Hparse.
  - intros Hcode Hparse.
    apply status_is_success_iff in Hcode. now rewrite Hcode, Hparse.
  - intro Hcode.
    destruct (status_is_success (Some code)) eqn:E; [|reflexivity].
    apply status_is_success_iff in E. contradiction.
  - intro Hcode. apply String_of_number_value, Hcode.
Qed.

(** ** Trimming *)

Lemma trimStart_cases (s : jsstring) :
  JS.String_trimStart s = [] \/
  exists x r, JS.String_trimStart s = x :: r /\ JS.is_whitespace x = false.
Proof.
  induction s as [|c s IH]; [now left|].
  simpl. destruct (JS.is_whitespace c) eqn:E; [exact IH|].
  right. now exists c, s.
Qed.

Lemma trimStart_fixed (x : code_unit) (r : jsstring) :
  JS.is_whitespace x = false -> JS.String_trimStart (x :: r) = x :: r.
Proof. intro E. simpl. now rewrite E. Qed.

Lemma trimStart_snoc (l : jsstring) (x : code_unit) :
  JS.is_whitespace x = false ->
  JS.String_trimStart (l ++ [x]) = JS.String_trimStart l ++ [x].
Proof.
  intro E. induction l as [|c l IH]; simpl.
  - now rewrite E.
  - destruct (JS.is_whitespace c); [exact IH|reflexivity].
Qed.

Lemma trim_clean_edges (s : jsstring) : clean_edges (JS.String_trim s).
Proof.
  unfold JS.String_trim, JS.String_trimEnd.
  destruct (trimStart_cases s) as [-> | (x & r & -> & Hx)]; [now left|].
  right. simpl rev. rewrite (trimStart_snoc _ x Hx), rev_app_distr. simpl.
  split.
  - now exists x, (rev (JS.String_trimStart (rev r))).
  - rewrite rev_involutive.
    destruct (trimStart_cases (rev r)) as [-> | (y & r' & -> & Hy)].
    + now exists x, [].
    + now exists y, (r' ++ [x]).
Qed.

Lemma trim_fixed (t : jsstring) : clean_edges t -> JS.String_trim t = t.
Proof.
  intros [-> | [(x & r & -> & Hx) (y & r' & Hrev & Hy)]]; [reflexivity|].
  unfold JS.String_trim, JS.String_trimEnd.
  rewrite (trimStart_fixed x r Hx), Hrev, (trimStart_fixed y r' Hy), <- Hrev.
  apply rev_involutive.
Qed.

Lemma trim_idempotent (s : jsstring) :
  JS.String_trim (JS.String_trim s) = JS.String_trim s.
Proof. apply trim_fixed, trim_clean_edges. Qed.

Lemma trimStart_nil_iff (s : jsstring) :
  JS.String_trimStart s = [] <-> blank s = true.
Proof.
  unfold blank. induction s as [|c s IH]; simpl; [tauto|].
  destruct (JS.is_whitespace c); simpl; [exact IH|].
  split; discriminate.
Qed.

(** Trimming leaves nothing exactly when the string is blank. *)
Lemma trim_nil_iff (s : jsstring) :
  JS.String_trim s = [] <-> blank s = true.
Proof.
  rewrite <- trimStart_nil_iff.
  unfold JS.String_trim, JS.String_trimEnd.
  destruct (trimStart_cases s) as [E | (x & r & E & Hx)]; rewrite E.
  - simpl. tauto.
  - simpl rev. rewrite (trimStart_snoc _ x Hx), rev_app_distr. simpl.
    split; discriminate.
Qed.

Lemma truthy_false_iff (s : jsstring) : truthy s = false <-> s = [].
Proof. destruct s; simpl; split; congruence. Qed.

Lemma truthy_true_iff (s : jsstring) : truthy s = true <-> s <> [].
Proof. destruct s; simpl; split; congruence. Qed.

(** ** Token store *)

Lemma loadRefreshToken_eq (w : World) :
  loadRefreshToken w
  = (Returned (option_map JS.String_trim (token_file w)), w).
Proof.
  unfold loadRefreshToken, bind, fs_read_token_file.
  now destruct (token_file w).
Qed.


(** ** Resolving the refresh token *)

Lemma getRefreshToken_env (w : World) (e : jsstring) :
  env_DROPBOX_REFRESH_TOKEN w = Some e -> e <> [] ->
  getRefreshToken w = (Returned e, w).
Proof.
  intros Henv Hne. apply truthy_true_iff in Hne.
  unfold getRefreshToken, bind, get_env_DROPBOX_REFRESH_TOKEN.
  rewrite Henv. simpl. rewrite Hne. simpl. unfold ret. now rewrite Hne.
Qed.

Lemma getRefreshToken_file (w : World) :
  truthy_opt (env_DROPBOX_REFRESH_TOKEN w) = false ->
  getRefreshToken w
  = (match token_file w with
     | Some text =>
         if truthy (JS.String_trim text)
         then Returned (JS.String_trim text)
         else Thrown (mkError getRefreshToken_message)
     | None => Thrown (mkError getRefreshToken_message)
     end, w).
Proof.
  intro Henv.
  unfold getRefreshToken, bind, get_env_DROPBOX_REFRESH_TOKEN.
  rewrite Henv. simpl. rewrite loadRefreshToken_eq.
  destruct (token_file w) as [text|]; simpl; [|reflexivity].
  now destruct (truthy (JS.String_trim text)).
Qed.

Lemma getRefreshToken_pure (w : World) : snd (getRefreshToken w) = w.
Proof.
  destruct (truthy_opt (env_DROPBOX_REFRESH_TOKEN w)) eqn:E.
  - destruct (env_DROPBOX_REFRESH_TOKEN w) as [e|] eqn:Henv; [|discriminate].
    simpl in E. apply truthy_true_iff in E.
    now rewrite (getRefreshToken_env w e Henv E).
  - now rewrite (getRefreshToken_file w E).
Qed.

(** C4.  When the environment holds a non-empty refresh token,
    [getRefreshToken] returns it, whatever the token file holds, so in
    particular when the file holds a token too.  When the environment
    value is unset or empty and the file is missing or blank, it fails
    with the error whose message points to [DROPBOX_REFRESH_TOKEN] and to
    the tools [dropbox_auth_get_url] and [dropbox_auth_exchange_code].
    In every state it answers from the two stored values alone and
    leaves the state as it was: it waits for no input. *)
Theorem getRefreshToken_resolution (w : World) :
  (forall e f, env_DROPBOX_REFRESH_TOKEN w = Some e -> e <> [] ->
               token_file w = Some f -> f <> [] ->
               getRefreshToken w = (Returned e, w))
  /\ (forall e, env_DROPBOX_REFRESH_TOKEN w = Some e -> e <> [] ->
                getRefreshToken w = (Returned e, w))
  /\ (truthy_opt (env_DROPBOX_REFRESH_TOKEN w) = false ->
      (token_file w = None \/
       exists f, token_file w = Some f /\ JS.String_trim f = []) ->
      getRefreshToken w = (Thrown (mkError getRefreshToken_message), w))
  /\ includes (js "Set DROPBOX_REFRESH_TOKEN") getRefreshToken_message = true
  /\ includes (js "dropbox_auth_get_url") getRefreshToken_message = true
  /\ includes (js "dropbox_auth_exchange_code") getRefreshToken_message = true
  /\ snd (getRefreshToken w) = w.
Proof.
  repeat split.
  - intros e f Henv Hne _ _. now apply getRefreshToken_env.
  - intros e Henv Hne. now apply getRefreshToken_env.
  - intros Henv Hfile. rewrite (getRefreshToken_file w Henv).
    destruct Hfile as [-> | (f & -> & Hblank)]; [reflexivity|].
    now rewrite Hblank.
  - apply getRefreshToken_pure.
Qed.

(** ** auth_status *)

Section AuthStatus.

Variable TOKEN_FILE_PATH : jsstring.

Lemma auth_status_value_eq (w : World) :
  let envToken := JS.String_trim (or_empty (env_DROPBOX_REFRESH_TOKEN w)) in
  let fileToken := JS.String_trim (or_empty (token_file w)) in
  auth_status_value TOKEN_FILE_PATH w
  = (Returned
       (status_object
          (truthy envToken || truthy fileToken)
          (if truthy envToken then js "env:DROPBOX_REFRESH_TOKEN"
           else if truthy fileToken then js "file:" ++ TOKEN_FILE_PATH
           else js "none")), w).
Proof.
  unfold auth_status_value, bind, get_env_DROPBOX_REFRESH_TOKEN.
  rewrite loadRefreshToken_eq.
  destruct (token_file w) as [content|]; simpl.
  - rewrite trim_idempotent. reflexivity.
  - reflexivity.
Qed.

(** C5 (as amended).  In every state [auth_status] returns the object
    [{configured, source}] in which [configured] is true exactly when the
    environment token or the token file holds a value that is not blank,
    and [source] is [env:DROPBOX_REFRESH_TOKEN] when the environment
    token is not blank, [file:] followed by the token file path when the
    environment token is unset or blank and the file holds a value that
    is not blank, and [none] otherwise; with no environment token and no
    token file it returns [{configured: false, source: "none"}]. *)
Theorem auth_status_reports (w : World) :
  let env := or_empty (env_DROPBOX_REFRESH_TOKEN w) in
  let content := or_empty (token_file w) in
  let configured := negb (blank env) || negb (blank content) in
  let source :=
    if negb (blank env) then js "env:DROPBOX_REFRESH_TOKEN"
    else if negb (blank content) then js "file:" ++ TOKEN_FILE_PATH
    else js "none" in
  auth_status_value TOKEN_FILE_PATH w
  = (Returned (status_object configured source), w)
  /\ tool_boundary (dropbox_auth_status TOKEN_FILE_PATH) w
     = (mkCallToolResult
          (JSON.text_of
             (JSON.stringify_indent2 (status_object configured source)))
          false, w)
  /\ (env_DROPBOX_REFRESH_TOKEN w = None -> token_file w = None ->
      configured = false /\ source = js "none").
Proof.
  intros env content configured source.
  pose proof (auth_status_value_eq w) as Hvalue. cbv zeta in Hvalue.
  fold env content in Hvalue.
  assert (Htruthy : forall s, truthy (JS.String_trim s) = negb (blank s)).
  { intro s. destruct (blank s) eqn:E.
    - apply trim_nil_iff in E. now rewrite E.
    - apply truthy_true_iff. intro Habs. apply trim_nil_iff in Habs.
      congruence. }
  rewrite !Htruthy in Hvalue. fold configured source in Hvalue.
  split; [exact Hvalue|]. split.
  - unfold tool_boundary, dropbox_auth_status, bind. rewrite Hvalue.
    reflexivity.
  - intros Henv Hfile. subst configured source env content.
    rewrite Henv, Hfile. split; reflexivity.
Qed.

End AuthStatus.

(** ** Operations and handlers over the network *)

Section Server.

Variable https_request : Request -> Incoming.
Variables APP_KEY APP_SECRET TOKEN_FILE_PATH : jsstring.
Variable URLSearchParams_toString : list (jsstring * jsstring) -> jsstring.
Variable Buffer_byteLength : jsstring -> Z.
Context {parse_TokenResponse : FromJSON TokenResponse.t}.
Context {parse_TokenPair : FromJSON TokenPair.t}.
Context {parse_ListFolder : FromJSON DropboxListFolderResponse}.

Local Notation getAccessToken' :=
  (getAccessToken https_request APP_KEY APP_SECRET URLSearchParams_toString
                  Buffer_byteLength).
Local Notation listFolder' :=
  (listFolder https_request APP_KEY APP_SECRET URLSearchParams_toString
              Buffer_byteLength).
Local Notation exchangeCodeForToken' :=
  (exchangeCodeForToken https_request APP_KEY APP_SECRET
                        URLSearchParams_toString Buffer_byteLength).
Local Notation dropbox_auth_exchange_code' :=
  (dropbox_auth_exchange_code https_request APP_KEY APP_SECRET TOKEN_FILE_PATH
                              URLSearchParams_toString Buffer_byteLength).

(** C8.  The object serialised into the body of the list request has the
    empty string as its path when the folder path is exactly a slash
    and the folder path itself otherwise, and its four flags
    (recursive listing, media info, deleted entries, shared members) are
    all false; this serialisation is the body of the one request
    [listFolder] sends once it has an access token. *)
Theorem listFolder_body (folderPath : jsstring) (w w' : World)
  (accessToken : option jsstring) :
  getAccessToken' w = (Returned accessToken, w') ->
  let arg := listFolder_arg folderPath in
  (folderPath = js "/" -> property arg (js "path") = JStr [])
  /\ (folderPath <> js "/" -> property arg (js "path") = JStr folderPath)
  /\ property arg (js "recursive") = JBool false
  /\ property arg (js "include_media_info") = JBool false
  /\ property arg (js "include_deleted") = JBool false
  /\ property arg (js "include_has_explicit_shared_members") = JBool false
  /\ JSON.stringify arg
     = Some (js "{" ++ JS.QuoteJSONString (js "path") ++ js ":"
             ++ JS.QuoteJSONString
                  (if jsstring_eqb folderPath (js "/") then [] else folderPath)
             ++ [44] ++ JS.QuoteJSONString (js "recursive") ++ js ":false,"
             ++ JS.QuoteJSONString (js "include_media_info") ++ js ":false,"
             ++ JS.QuoteJSONString (js "include_deleted") ++ js ":false,"
             ++ JS.QuoteJSONString (js "include_has_explicit_shared_members")
             ++ js ":false}")
  /\ listFolder' folderPath w
     = (match makeRequest https_request (js "api.dropboxapi.com")
                (js "/2/files/list_folder") (js "POST")
                (listFolder_headers accessToken)
                (Some (JSON.text_of (JSON.stringify arg))) with
        | Returned result => Returned (entries result)
        | Thrown e => Thrown e
        end, w').
Proof.
  intros Htoken arg. subst arg. unfold listFolder_arg.
  split.
  { intros ->. reflexivity. }
  split.
  { intro Hne.
    destruct (jsstring_eqb folderPath (js "/")) eqn:E.
    - apply jsstring_eqb_eq in E. contradiction.
    - reflexivity. }
  do 4 (split; [reflexivity|]).
  split.
  { unfold JSON.stringify. cbn [JSON.serialize truthy app].
    unfold JSON.join. cbn [app js]. rewrite <- !app_assoc. reflexivity. }
  unfold listFolder, bind. rewrite Htoken. unfold lift, ret.
  now destruct (makeRequest _ _ _ _ _ _).
Qed.





End Server.

(** ** The statements at concrete inputs *)

Lemma code_units_only_wf (s : jsstring) :
  code_units_only s = true -> wf_jsstring s.
Proof.
  unfold code_units_only, wf_jsstring. rewrite forallb_forall, Forall_forall.
  intros H c Hc. specialize (H c Hc).
  apply andb_true_iff in H as [H1 H2].
  apply Z.leb_le in H1. apply Z.leb_le in H2. now split.
Defined.

(** The download scenario: the argument header for [/a.txt]. *)
Lemma download_header_escaping_witness :
  header_lookup (js "Dropbox-API-Arg")
                (download_headers (Some (js "x")) (js "/a.txt"))
  = Some (js "{" ++ [DQUOTE] ++ js "path" ++ [DQUOTE] ++ js ":"
          ++ [DQUOTE] ++ js "/a.txt" ++ [DQUOTE] ++ js "}").
Proof.
  exact (proj1 (proj2
    (download_header_escaping
       (parse_TokenResponse := Sample.parse_TokenResponse (js "x") (js "tok"))
       (parse_string := Sample.parse_none)
       (Sample.server (Sample.token_body (js "x") (js "tok")))
       Sample.APP_KEY Sample.APP_SECRET
       Sample.URLSearchParams_toString Sample.Buffer_byteLength
       (js "/a.txt") Sample.env_only Sample.env_only (Some (js "x"))
       (code_units_only_wf (js "/a.txt") eq_refl)
       eq_refl))).
Defined.

(** A line feed in the path is written with the two-character escape of
    [JSON.stringify], not with a numeric escape, and a backslash, which
    is printable, is doubled. *)
Lemma download_header_line_feed :
  header_lookup (js "Dropbox-API-Arg")
                (download_headers (Some (js "x")) [10])
  = Some (path_arg_json (js "\n"))
  /\ header_lookup (js "Dropbox-API-Arg")
                   (download_headers (Some (js "x")) [10])
     <> Some (path_arg_json (flat_map numeric_escape_only [10]))
  /\ header_lookup (js "Dropbox-API-Arg")
                   (download_headers (Some (js "x")) (js "a\b"))
     = Some (path_arg_json (js "a\\b"))
  /\ header_lookup (js "Dropbox-API-Arg")
                   (download_headers (Some (js "x")) (js "a\b"))
     <> Some (path_arg_json (flat_map numeric_escape_only (js "a\b"))).
Proof.
  split; [reflexivity|]. split.
  { intro H. vm_compute in H. discriminate H. }
  split; [reflexivity|].
  intro H. vm_compute in H. discriminate H.
Qed.

(** 2024-12-15 14:45, the title [a/b: c]. *)
Lemma generateFileName_shape_witness :
  generateFileName Sample.december_2024 (js "a/b: c")
  = js "202412151445-a-b- c.md".
Proof.
  assert (Hvalid : valid_LocalTime Sample.december_2024)
    by (unfold valid_LocalTime; simpl; lia).
  assert (Hyear : 1000 <= getFullYear Sample.december_2024 <= 9999)
    by (simpl; lia).
  exact (proj1 (proj2 (proj2
    (generateFileName_shape Sample.december_2024 (js "a/b: c") Hvalid)))
    Hyear).
Defined.

(** In the year 10000 the file name does not start with four digits of
    year followed by the eight digits of month, day, hour and minute. *)
Lemma generateFileName_year_10000 :
  generateFileName Sample.year_10000 (js "a") = js "100000101" ++ js "0000-a.md"
  /\ ~ exists yyyy : jsstring,
         length yyyy = 4%nat /\
         generateFileName Sample.year_10000 (js "a")
         = fileName_of yyyy Sample.year_10000 (js "a").
Proof.
  split; [reflexivity|].
  intros (yyyy & Hlen & Heq).
  apply (f_equal (@length code_unit)) in Heq.
  unfold fileName_of in Heq. rewrite length_app, Hlen in Heq.
  vm_compute in Heq. discriminate Heq.
Qed.

(** Status 200 with the body of a token pair: the parsed pair. *)
Lemma makeRequest_classifies_response_witness :
  makeRequest (parse := Sample.parse_TokenPair (js "x") (js "y"))
    (Sample.server (Sample.token_body (js "x") (js "y")))
    (js "api.dropboxapi.com") (js "/oauth2/token") (js "POST") [] None
  = Returned (TokenPair.mk (Some (js "x")) (Some (js "y"))).
Proof.
  exact (proj1
    (makeRequest_classifies_response
       (parse := Sample.parse_TokenPair (js "x") (js "y"))
       (Sample.server (Sample.token_body (js "x") (js "y")))
       (js "api.dropboxapi.com") (js "/oauth2/token") (js "POST") [] None
       200 (Sample.token_body (js "x") (js "y")) eq_refl)
    ltac:(lia) (TokenPair.mk (Some (js "x")) (Some (js "y"))) eq_refl).
Defined.

(** Status 200 with a body that is not JSON, and status 404. *)
Example makeRequest_text_body :
  makeRequest (T := jsstring) (parse := Sample.parse_none)
    (fun _ => ResponseEnd (Some 200) (js "plain text"))
    (js "content.dropboxapi.com") (js "/2/files/download") (js "POST") [] None
  = Returned (js "plain text").
Proof. reflexivity. Qed.

Example makeRequest_not_found :
  makeRequest (T := jsstring) (parse := Sample.parse_none)
    (fun _ => ResponseEnd (Some 404) (js "missing"))
    (js "content.dropboxapi.com") (js "/2/files/download") (js "POST") [] None
  = Thrown (mkError (js "Request failed: 404 - missing")).
Proof. reflexivity. Qed.

(** Both sources hold a token: the environment wins. *)
Lemma getRefreshToken_resolution_witness :
  getRefreshToken (mkWorld (Some (js "from-env")) (Some (js "from-file")))
  = (Returned (js "from-env"),
     mkWorld (Some (js "from-env")) (Some (js "from-file"))).
Proof.
  exact (proj1
    (getRefreshToken_resolution
       (mkWorld (Some (js "from-env")) (Some (js "from-file"))))
    (js "from-env") (js "from-file")
    eq_refl ltac:(discriminate) eq_refl ltac:(discriminate)).
Defined.

(** Neither source holds a token: the configuration error. *)
Example getRefreshToken_unconfigured :
  getRefreshToken Sample.unconfigured
  = (Thrown (mkError getRefreshToken_message), Sample.unconfigured).
Proof. reflexivity. Qed.

(** No environment token and no token file. *)
Lemma auth_status_reports_witness :
  tool_boundary (dropbox_auth_status Sample.TOKEN_FILE_PATH)
                Sample.unconfigured
  = (mkCallToolResult
       (JSON.join JSON.newline
          [ js "{";
            js "  " ++ [DQUOTE] ++ js "configured" ++ [DQUOTE]
              ++ js ": false,";
            js "  " ++ [DQUOTE] ++ js "source" ++ [DQUOTE] ++ js ": "
              ++ [DQUOTE] ++ js "none" ++ [DQUOTE];
            js "}" ])
       false, Sample.unconfigured)
  /\ fst (auth_status_value Sample.TOKEN_FILE_PATH Sample.unconfigured)
     = Returned (status_object false (js "none")).
Proof.
  split.
  - exact (proj1 (proj2 (auth_status_reports Sample.TOKEN_FILE_PATH
                                             Sample.unconfigured))).
  - exact (f_equal fst
             (proj1 (auth_status_reports Sample.TOKEN_FILE_PATH
                                         Sample.unconfigured))).
Defined.

(** With a token in the environment the source is not the bare word
    [env]. *)
Lemma auth_status_env_source :
  fst (auth_status_value Sample.TOKEN_FILE_PATH Sample.env_only)
  = Returned (status_object true (js "env:DROPBOX_REFRESH_TOKEN"))
  /\ fst (auth_status_value Sample.TOKEN_FILE_PATH Sample.env_only)
     <> Returned (status_object true (js "env")).
Proof.
  split; [reflexivity|].
  intro H. vm_compute in H. discriminate H.
Qed.


(** The root folder. *)
Lemma listFolder_body_witness :
  property (listFolder_arg (js "/")) (js "path") = JStr [].
Proof.
  exact (proj1
    (listFolder_body
       (parse_TokenResponse := Sample.parse_TokenResponse (js "x") (js "tok"))
       (parse_ListFolder := Sample.parse_none)
       (Sample.server (Sample.token_body (js "x") (js "tok")))
       Sample.APP_KEY Sample.APP_SECRET
       Sample.URLSearchParams_toString Sample.Buffer_byteLength
       (js "/") Sample.env_only Sample.env_only (Some (js "x")) eq_refl)
    eq_refl).
Defined.

Example listFolder_body_text :
  JSON.stringify (listFolder_arg (js "/Notes"))
  = Some (js "{" ++ [DQUOTE] ++ js "path" ++ [DQUOTE] ++ js ":"
          ++ [DQUOTE] ++ js "/Notes" ++ [DQUOTE] ++ js ","
          ++ [DQUOTE] ++ js "recursive" ++ [DQUOTE] ++ js ":false,"
          ++ [DQUOTE] ++ js "include_media_info" ++ [DQUOTE] ++ js ":false,"
          ++ [DQUOTE] ++ js "include_deleted" ++ [DQUOTE] ++ js ":false,"
          ++ [DQUOTE] ++ js "include_has_explicit_shared_members" ++ [DQUOTE]
          ++ js ":false}").
Proof. reflexivity. Qed.




Example exchange_code_unsaved :
  Scenario.exchange (js "y") (Some false) Sample.unconfigured
  = (Returned (JSON.join JSON.newline
                 [ js "{";
                   js "  " ++ [DQUOTE] ++ js "refresh_token" ++ [DQUOTE]
                     ++ js ": " ++ [DQUOTE] ++ js "y" ++ [DQUOTE] ++ js ",";
                   js "  " ++ [DQUOTE] ++ js "saved" ++ [DQUOTE]
                     ++ js ": false";
                   js "}" ]),
     mkWorld (Some (js "y")) None).
Proof. reflexivity. Qed.

(** ** The refresh token that is used *)

(** [getRefreshToken] never returns the empty string. *)
Lemma getRefreshToken_not_empty (w : World) (token : jsstring) :
  fst (getRefreshToken w) = Returned token -> token <> [].
Proof.
  destruct (truthy_opt (env_DROPBOX_REFRESH_TOKEN w)) eqn:E.
  - destruct (env_DROPBOX_REFRESH_TOKEN w) as [e|] eqn:Henv; [|discriminate].
    simpl in E. apply truthy_true_iff in E.
    rewrite (getRefreshToken_env w e Henv E). simpl. congruence.
  - rewrite (getRefreshToken_file w E).
    destruct (token_file w) as [content|]; simpl; [|discriminate].
    destruct (truthy (JS.String_trim content)) eqn:Ht; [|discriminate].
    intro H. injection H as <-. now apply truthy_true_iff.
Qed.

(** A token that comes from the token file is trimmed and not blank. *)
Lemma getRefreshToken_file_token_clean (w : World) (token : jsstring) :
  truthy_opt (env_DROPBOX_REFRESH_TOKEN w) = false ->
  fst (getRefreshToken w) = Returned token ->
  blank token = false /\ JS.String_trim token = token.
Proof.
  intros Henv. rewrite (getRefreshToken_file w Henv).
  destruct (token_file w) as [content|]; simpl; [|discriminate].
  destruct (truthy (JS.String_trim content)) eqn:Ht; [|discriminate].
  intro H. injection H as <-. split.
  - destruct (blank (JS.String_trim content)) eqn:Hb; [|reflexivity].
    apply trim_nil_iff in Hb. rewrite trim_idempotent in Hb.
    rewrite Hb in Ht. discriminate.
  - apply trim_idempotent.
Qed.

(** C6.  With a single space in [DROPBOX_REFRESH_TOKEN] and the token
    [tok] in the token file, [auth_status] reports a configured token
    whose source is the file, and yet [getRefreshToken] returns the
    blank environment value, which [getAccessToken] then sends as the
    refresh token of its request (the server here answers 400 with the
    body it was sent).  With the same environment and no token file,
    [auth_status] reports that nothing is configured and
    [getRefreshToken] still returns the blank value. *)
Theorem getRefreshToken_blank_env_token :
  blank (js " ") = true
  /\ fst (auth_status_value Sample.TOKEN_FILE_PATH Sample.blank_env_and_file)
     = Returned (status_object true (js "file:" ++ Sample.TOKEN_FILE_PATH))
  /\ getRefreshToken Sample.blank_env_and_file
     = (Returned (js " "), Sample.blank_env_and_file)
  /\ getAccessToken
       (parse_TokenResponse := Sample.parse_none)
       (fun request =>
          ResponseEnd (Some 400) (or_empty (written request)))
       Sample.APP_KEY Sample.APP_SECRET
       Sample.URLSearchParams_toString Sample.Buffer_byteLength
       Sample.blank_env_and_file
     = (Thrown (mkError (js "Request failed: 400 - grant_type=refresh_token&refresh_token= &client_id=key&client_secret=secret")),
        Sample.blank_env_and_file)
  /\ fst (auth_status_value Sample.TOKEN_FILE_PATH Sample.blank_env_only)
     = Returned (status_object false (js "none"))
  /\ getRefreshToken Sample.blank_env_only
     = (Returned (js " "), Sample.blank_env_only).
Proof. repeat split. Qed.

(* ================================================================== *)
(** * Further properties of the code *)
(* ================================================================== *)

(** ** [escapeNonAscii] on its own *)

Lemma escapeNonAscii_below_127 (s : jsstring) :
  forallb below_127 s = true -> escapeNonAscii s = s.
Proof.
  unfold escapeNonAscii, JS.String_replace_class.
  induction s as [|c s IH]; [reflexivity|].
  cbn [forallb flat_map]. intro H.
  apply andb_true_iff in H as [Hc Hs]. rewrite (IH Hs).
  unfold below_127 in Hc. apply Z.ltb_lt in Hc. unfold non_ascii_class.
  replace (127 <=? c) with false by (symmetry; apply Z.leb_gt; lia).
  reflexivity.
Qed.

Lemma header_safe_below_127 (s : jsstring) :
  forallb header_safe s = true -> forallb below_127 s = true.
Proof.
  induction s as [|c s IH]; [reflexivity|].
  cbn [forallb]. intro H. apply andb_true_iff in H as [Hc Hs].
  rewrite (IH Hs), andb_true_r.
  unfold header_safe in Hc. apply andb_true_iff in Hc as [_ Hc].
  apply Z.leb_le in Hc. apply Z.ltb_lt. lia.
Qed.

Lemma escapeNonAscii_unit (c : code_unit) :
  is_code_unit c ->
  escapeNonAscii [c]
  = if non_ascii_class c then js "\u" ++ hex4 c else [c].
Proof.
  intro Hc. unfold escapeNonAscii, JS.String_replace_class. cbn [flat_map].
  rewrite app_nil_r. destruct (non_ascii_class c); [|reflexivity].
  apply escape_replacer_hex4, Hc.
Qed.

Lemma escapeNonAscii_cons (c : code_unit) (s : jsstring) :
  escapeNonAscii (c :: s) = escapeNonAscii [c] ++ escapeNonAscii s.
Proof. apply (escapeNonAscii_app [c] s). Qed.

Lemma escapeNonAscii_output_below_127 (s : jsstring) :
  wf_jsstring s -> forallb below_127 (escapeNonAscii s) = true.
Proof.
  induction 1 as [|c s Hc _ IH]; [reflexivity|].
  rewrite escapeNonAscii_cons, forallb_app, IH, andb_true_r.
  rewrite (escapeNonAscii_unit c Hc).
  destruct (non_ascii_class c) eqn:Hhigh.
  - apply header_safe_below_127, numeric_escape_safe.
  - cbn [forallb]. rewrite andb_true_r. unfold below_127.
    unfold non_ascii_class in Hhigh. destruct Hc as [_ Hc].
    apply Z.ltb_lt. apply andb_false_iff in Hhigh as [H|H].
    + apply Z.leb_gt in H. lia.
    + apply Z.leb_gt in H. lia.
Qed.

(** X1.  For every string, no code unit of the result of
    [escapeNonAscii] is U+007F or above; the code units below U+007F,
    control characters included, are copied as they are, so the result
    is the input exactly when the input has no code unit from U+007F
    up. *)
Theorem escapeNonAscii_range (s : jsstring) :
  wf_jsstring s ->
  Forall (fun c => 0 <= c < 127) (escapeNonAscii s)
  /\ (escapeNonAscii s = s <-> Forall (fun c => c < 127) s).
Proof.
  intro Hwf.
  pose proof (escapeNonAscii_output_below_127 s Hwf) as Hout.
  split.
  - apply Forall_forall. intros c Hin. split.
    + clear Hout. induction Hwf as [|d s Hd _ IH]; [contradiction|].
      rewrite escapeNonAscii_cons in Hin. apply in_app_or in Hin as [Hin|Hin];
        [|now apply IH].
      rewrite (escapeNonAscii_unit d Hd) in Hin.
      destruct (non_ascii_class d).
      * pose proof (numeric_escape_safe d) as Hsafe.
        rewrite forallb_forall in Hsafe. specialize (Hsafe c Hin).
        unfold header_safe in Hsafe. apply andb_true_iff in Hsafe as [Hlo _].
        apply Z.leb_le in Hlo. lia.
      * destruct Hin as [<-|[]]. apply Hd.
    + rewrite forallb_forall in Hout. specialize (Hout c Hin).
      now apply Z.ltb_lt in Hout.
  - split.
    + intro Heq. rewrite Heq in Hout. rewrite forallb_forall in Hout.
      apply Forall_forall. intros c Hin. now apply Z.ltb_lt, Hout.
    + intro Hlow. apply escapeNonAscii_below_127, forallb_forall.
      intros c Hin. rewrite Forall_forall in Hlow.
      now apply Z.ltb_lt, Hlow.
Qed.

(** X2.  Escaping twice is escaping once. *)
Theorem escapeNonAscii_idempotent (s : jsstring) :
  wf_jsstring s -> escapeNonAscii (escapeNonAscii s) = escapeNonAscii s.
Proof.
  intro Hwf. apply escapeNonAscii_below_127, escapeNonAscii_output_below_127,
               Hwf.
Qed.

(** X3.  Every code unit from U+007F up becomes six characters and the
    others stay one: the result is longer than the input by five times
    the number of code units from U+007F up. *)
Theorem escapeNonAscii_length (s : jsstring) :
  wf_jsstring s ->
  length (escapeNonAscii s)
  = (length s + 5 * length (filter non_ascii_class s))%nat.
Proof.
  induction 1 as [|c s Hc _ IH]; [reflexivity|].
  rewrite escapeNonAscii_cons, length_app, IH, (escapeNonAscii_unit c Hc).
  cbn [filter]. destruct (non_ascii_class c); simpl; lia.
Qed.

(** ** The escaped path can be read back *)

Lemma hex_value_digit_char (d : Z) :
  0 <= d < 16 -> hex_value (JS.digit_char d) = Some d.
Proof.
  intro Hd. unfold hex_value, JS.digit_char.
  destruct (Z.ltb_spec d 10) as [Hlow|Hhigh].
  - replace ((48 <=? 48 + d) && (48 + d <=? 57)) with true
      by (symmetry; apply andb_true_iff; split; apply Z.leb_le; lia).
    f_equal. lia.
  - replace ((48 <=? 87 + d) && (87 + d <=? 57)) with false
      by (symmetry; apply andb_false_iff; right; apply Z.leb_gt; lia).
    replace ((97 <=? 87 + d) && (87 + d <=? 102)) with true
      by (symmetry; apply andb_true_iff; split; apply Z.leb_le; lia).
    f_equal. lia.
Qed.

Lemma unescape_numeric (c : code_unit) (rest : jsstring) :
  is_code_unit c ->
  unescape Plain (js "\u" ++ hex4 c ++ rest)
  = option_map (cons c) (unescape Plain rest).
Proof.
  intros [Hlo Hhi].
  assert (Hn : forall x, 0 <= x mod 16 < 16)
    by (intro x; apply Z.mod_pos_bound; lia).
  change (unescape Plain (js "\u" ++ hex4 c ++ rest))
    with (unescape (Hex 4 0) (hex4 c ++ rest)).
  unfold hex4. cbn [app unescape].
  rewrite !hex_value_digit_char by apply Hn.
  assert (Hvalue :
    16 * (16 * (16 * (16 * 0 + c / 4096 mod 16) + c / 256 mod 16)
          + c / 16 mod 16) + c mod 16 = c).
  { assert (H4096 : c / 4096 mod 16 = c / 4096)
      by (apply Z.mod_small; split;
          [apply Z.div_pos; lia | apply Z.div_lt_upper_bound; lia]).
    assert (E256 : c / 16 / 16 = c / 256)
      by (rewrite Z.div_div by lia; reflexivity).
    assert (E4096 : c / 256 / 16 = c / 4096)
      by (rewrite Z.div_div by lia; reflexivity).
    pose proof (Z.div_mod c 16 ltac:(lia)) as H1.
    pose proof (Z.div_mod (c / 16) 16 ltac:(lia)) as H2.
    pose proof (Z.div_mod (c / 256) 16 ltac:(lia)) as H3.
    rewrite E256 in H2. rewrite E4096 in H3.
    lia. }
  now rewrite Hvalue.
Qed.

Lemma unescape_header_unit (c : code_unit) (rest : jsstring) :
  is_code_unit c ->
  unescape Plain (header_unit c ++ rest)
  = option_map (cons c) (unescape Plain rest).
Proof.
  intro Hc. unfold header_unit.
  repeat match goal with
         | |- context [c =? ?b] =>
             destruct (Z.eqb_spec c b) as [->|?]; [reflexivity|]
         end.
  destruct ((c <? 32) || (127 <=? c)).
  - rewrite <- app_assoc. apply unescape_numeric, Hc.
  - cbn [app unescape].
    now replace (c =? 92) with false by (symmetry; now apply Z.eqb_neq).
Qed.

Lemma unescape_header_units (s : jsstring) :
  wf_jsstring s -> unescape Plain (flat_map header_unit s) = Some s.
Proof.
  induction 1 as [|c s Hc _ IH]; [reflexivity|].
  cbn [flat_map]. now rewrite (unescape_header_unit c _ Hc), IH.
Qed.

Lemma header_units_injective (a b : jsstring) :
  wf_jsstring a -> wf_jsstring b ->
  flat_map header_unit a = flat_map header_unit b -> a = b.
Proof.
  intros Ha Hb Heq.
  pose proof (unescape_header_units a Ha) as Hread.
  rewrite Heq, (unescape_header_units b Hb) in Hread. congruence.
Qed.

(** X4.  Two paths whose download requests carry the same
    Dropbox-API-Arg header are the same path: the escaping loses
    nothing. *)
Theorem download_header_injective
  (token1 token2 : option jsstring) (path1 path2 : jsstring) :
  wf_jsstring path1 -> wf_jsstring path2 ->
  header_lookup (js "Dropbox-API-Arg") (download_headers token1 path1)
  = header_lookup (js "Dropbox-API-Arg") (download_headers token2 path2) ->
  path1 = path2.
Proof.
  intros H1 H2 Heq.
  rewrite (download_header_value token1 path1 H1),
          (download_header_value token2 path2 H2) in Heq.
  injection Heq as Heq. unfold path_arg_json in Heq.
  cbn [js app] in Heq.
  repeat match type of Heq with
         | _ :: _ = _ :: _ => injection Heq as _ Heq
         end.
  apply app_inv_tail in Heq.
  now apply header_units_injective.
Qed.

(** ** Upload *)

Lemma upload_header_value (accessToken : option jsstring)
  (filePath : jsstring) :
  wf_jsstring filePath ->
  header_lookup (js "Dropbox-API-Arg") (upload_headers accessToken filePath)
  = Some (upload_arg_json (flat_map header_unit filePath)).
Proof.
  intro Hwf. unfold upload_headers.
  cbn [header_lookup].
  replace (jsstring_eqb (js "Authorization") (js "Dropbox-API-Arg"))
    with false by reflexivity.
  rewrite jsstring_eqb_refl. f_equal.
  unfold JSON.stringify, upload_arg.
  cbn [JSON.serialize JSON.text_of truthy JSON.join].
  unfold JS.QuoteJSONString at 2.
  rewrite !escapeNonAscii_app.
  change (escapeNonAscii (DQUOTE :: JS.quote_units filePath ++ [DQUOTE]))
    with (DQUOTE :: escapeNonAscii (JS.quote_units filePath ++ [DQUOTE])).
  rewrite !escapeNonAscii_app, (escapeNonAscii_quote_units filePath Hwf).
  unfold upload_arg_json. cbn. rewrite <- !app_assoc. reflexivity.
Qed.

(** X5.  For every path, the Dropbox-API-Arg header of the upload request
    is the text [{"path":"...","mode":"add","autorename":true,"mute":false}]
    with the path escaped exactly as in the download header; it holds
    printable ASCII only, and two paths with the same header are the
    same path. *)
Theorem upload_header_escaping (accessToken : option jsstring)
  (filePath : jsstring) :
  wf_jsstring filePath ->
  header_lookup (js "Dropbox-API-Arg") (upload_headers accessToken filePath)
  = Some (upload_arg_json (flat_map header_unit filePath))
  /\ header_lookup (js "Dropbox-API-Arg")
                   (download_headers accessToken filePath)
     = Some (path_arg_json (flat_map header_unit filePath))
  /\ forallb header_safe (upload_arg_json (flat_map header_unit filePath))
     = true
  /\ (forall other, wf_jsstring other ->
        header_lookup (js "Dropbox-API-Arg")
                      (upload_headers accessToken other)
        = header_lookup (js "Dropbox-API-Arg")
                        (upload_headers accessToken filePath) ->
        other = filePath).
Proof.
  intro Hwf. split; [apply upload_header_value, Hwf|].
  split; [apply download_header_value, Hwf|]. split.
  - unfold upload_arg_json.
    rewrite !forallb_app, (header_units_safe filePath Hwf). reflexivity.
  - intros other Hother Heq.
    rewrite (upload_header_value accessToken other Hother),
            (upload_header_value accessToken filePath Hwf) in Heq.
    injection Heq as Heq. unfold upload_arg_json in Heq.
    cbn [js app] in Heq.
    repeat match type of Heq with
           | _ :: _ = _ :: _ => injection Heq as _ Heq
           end.
    apply app_inv_tail in Heq.
    now apply header_units_injective.
Qed.

Section UploadRequest.

Variable https_request : Request -> Incoming.
Variables APP_KEY APP_SECRET : jsstring.
Variable URLSearchParams_toString : list (jsstring * jsstring) -> jsstring.
Variable Buffer_byteLength : jsstring -> Z.
Context {parse_TokenResponse : FromJSON TokenResponse.t}.
Variable Metadata : Type.
Context {parse_Metadata : FromJSON Metadata}.
Context {cast_Metadata : FromText Metadata}.

(** X6.  Once it has an access token, [uploadFile] sends one POST to the
    upload path of the content host with the upload headers; the content
    is written as the body unless it is empty, in which case nothing is
    written; the answer is classified as by [makeRequest] and the state
    is left as the token request left it. *)
Theorem uploadFile_request (filePath content : jsstring) (w w' : World)
  (accessToken : option jsstring) :
  getAccessToken https_request APP_KEY APP_SECRET URLSearchParams_toString
                 Buffer_byteLength w = (Returned accessToken, w') ->
  uploadFile https_request APP_KEY APP_SECRET URLSearchParams_toString
             Buffer_byteLength Metadata filePath content w
  = (match https_request
             (mkRequest (js "content.dropboxapi.com") (js "/2/files/upload")
                        (js "POST") (upload_headers accessToken filePath)
                        (match content with
                         | [] => None
                         | _ :: _ => Some content
                         end)) with
     | ResponseEnd statusCode data => makeRequest_on_end statusCode data
     | RequestError e => Thrown e
     | SocketIdle => Thrown (mkError (js "Request timed out"))
     end, w').
Proof.
  intro Htoken. unfold uploadFile, bind. rewrite Htoken.
  unfold lift, makeRequest. now destruct content.
Qed.

End UploadRequest.

(** ** File names, further *)

Lemma digits_aux_decimal_digits (fuel : nat) :
  forall (n : Z) (acc : jsstring),
    Forall is_digit_or_dash acc ->
    Forall is_digit_or_dash (JS.digits_aux fuel 10 n acc).
Proof.
  induction fuel as [|fuel IH]; intros n acc Hacc; [exact Hacc|].
  cbn [JS.digits_aux].
  assert (Hmod : 0 <= n mod 10 < 10) by (apply Z.mod_pos_bound; lia).
  assert (Hacc' : Forall is_digit_or_dash (JS.digit_char (n mod 10) :: acc)).
  { constructor; [|exact Hacc].
    rewrite (digit_char_decimal _ Hmod). right. lia. }
  destruct (n / 10 =? 0); [exact Hacc'|]. apply IH, Hacc'.
Qed.

Lemma String_of_number_digits (n : Z) :
  Forall is_digit_or_dash (JS.String_of_number n).
Proof.
  unfold JS.String_of_number, JS.Number_toString.
  destruct (n <? 0).
  - constructor; [now left|]. apply digits_aux_decimal_digits. constructor.
  - apply digits_aux_decimal_digits. constructor.
Qed.

Lemma digit_or_dash_allowed (c : code_unit) :
  is_digit_or_dash c -> filename_forbidden c = false.
Proof.
  intros [-> | Hc]; [reflexivity|]. unfold filename_forbidden.
  repeat (apply orb_false_iff; split); apply Z.eqb_neq; lia.
Qed.

Lemma sanitize_char_allowed (c : code_unit) :
  filename_forbidden (sanitize_char c) = false.
Proof.
  unfold sanitize_char. destruct (filename_forbidden c) eqn:E;
    [reflexivity | exact E].
Qed.

Lemma two_digits_digits (n : Z) : Forall is_digit_or_dash (two_digits n).
Proof.
  unfold two_digits.
  assert (H1 : 0 <= n / 10 mod 10 < 10) by (apply Z.mod_pos_bound; lia).
  assert (H2 : 0 <= n mod 10 < 10) by (apply Z.mod_pos_bound; lia).
  apply Forall_cons; [right; lia|].
  apply Forall_cons; [right; lia|]. apply Forall_nil.
Qed.

Lemma allowed_of_digits (s : jsstring) :
  Forall is_digit_or_dash s ->
  forallb (fun c => negb (filename_forbidden c)) s = true.
Proof.
  induction 1 as [|c s Hc _ IH]; [reflexivity|].
  cbn [forallb]. now rewrite (digit_or_dash_allowed c Hc), IH.
Qed.

(** X7.  Whatever the title and the time, the generated file name holds
    none of the ten characters slash, backslash, question mark, percent,
    star, colon, bar, double quote, less-than and greater-than. *)
Theorem generateFileName_no_forbidden (now : LocalTime) (title : jsstring) :
  valid_LocalTime now ->
  forallb (fun c => negb (filename_forbidden c)) (generateFileName now title)
  = true.
Proof.
  intro Hvalid. rewrite (generateFileName_unfold now title Hvalid).
  unfold fileName_of. rewrite !forallb_app.
  rewrite (allowed_of_digits _ (String_of_number_digits (getFullYear now))).
  rewrite !(allowed_of_digits _ (two_digits_digits _)).
  cbn [andb]. apply andb_true_iff. split; [reflexivity|].
  apply andb_true_iff. split; [|reflexivity].
  apply forallb_forall. intros c Hin.
  apply in_map_iff in Hin as (d & <- & _).
  now rewrite sanitize_char_allowed.
Qed.

(** X8.  At one and the same time, two titles get the same file name
    exactly when they are equal after sanitising; titles that hold none
    of the ten replaced characters get the same file name only when they
    are the same title. *)
Theorem generateFileName_collisions (now : LocalTime)
  (title1 title2 : jsstring) :
  valid_LocalTime now ->
  (generateFileName now title1 = generateFileName now title2
   <-> map sanitize_char title1 = map sanitize_char title2)
  /\ (forallb (fun c => negb (filename_forbidden c)) title1 = true ->
      forallb (fun c => negb (filename_forbidden c)) title2 = true ->
      generateFileName now title1 = generateFileName now title2 ->
      title1 = title2).
Proof.
  intro Hvalid.
  assert (Hiff : generateFileName now title1 = generateFileName now title2
                 <-> map sanitize_char title1 = map sanitize_char title2).
  { rewrite !(generateFileName_unfold now _ Hvalid). unfold fileName_of.
    split.
    - intro Heq. repeat apply app_inv_head in Heq.
      now apply app_inv_tail in Heq.
    - now intros ->. }
  split; [exact Hiff|].
  assert (Hid : forall t,
            forallb (fun c => negb (filename_forbidden c)) t = true ->
            map sanitize_char t = t).
  { induction t as [|c t IH]; [reflexivity|].
    cbn [forallb map]. intro H. apply andb_true_iff in H as [Hc Ht].
    rewrite (IH Ht). unfold sanitize_char.
    apply negb_true_iff in Hc. now rewrite Hc. }
  intros H1 H2 Heq. apply Hiff in Heq.
  now rewrite (Hid title1 H1), (Hid title2 H2) in Heq.
Qed.

(** ** [makeRequest], read backwards *)

Section MakeRequestInversion.

Context {T : Type} {parse : FromJSON T} {cast : FromText T}.
Variable https_request : Request -> Incoming.
Variables hostname path method : jsstring.
Variable headers : list (jsstring * jsstring).
Variable body : option jsstring.

Local Notation sent :=
  (mkRequest hostname path method headers
             (if truthy_opt body then body else None)).
(** X9.  [makeRequest] resolves only when the response arrived in full
    with a status in [200, 300), and then with the parsed body, or with
    the body text when the body is not JSON. *)
Theorem makeRequest_resolves_only_on_success (v : T) :
  makeRequest https_request hostname path method headers body = Returned v ->
  exists code data,
    https_request sent = ResponseEnd (Some code) data
    /\ 200 <= code < 300
    /\ (JSON_parse data = Some v
        \/ JSON_parse (T := T) data = None /\ v = text_as data).
Proof.
  unfold makeRequest, makeRequest_on_end.
  destruct (https_request sent) as [[code|] data|e|]; try discriminate.
  - destruct (status_is_success (Some code)) eqn:Hstatus; [|discriminate].
    apply status_is_success_iff in Hstatus.
    intro Hcall. exists code, data. split; [reflexivity|]. split; [exact Hstatus|].
    destruct (JSON_parse data) as [parsed|].
    + left. congruence.
    + right. split; [reflexivity|congruence].
Qed.

(** X10.  [makeRequest] fails in three ways only: with the error the
    request emitted, with the time-out error after thirty idle seconds,
    or, for a response that is not a success, with the error whose
    message is [Request failed: ], the status ([undefined] when there is
    none), [ - ] and the body. *)
Theorem makeRequest_failures (e : Error) :
  makeRequest https_request hostname path method headers body = Thrown e ->
  https_request sent = RequestError e
  \/ (https_request sent = SocketIdle
      /\ e = mkError (js "Request timed out"))
  \/ (exists statusCode data,
        https_request sent = ResponseEnd statusCode data
        /\ status_is_success statusCode = false
        /\ e = mkError (js "Request failed: " ++ template_number statusCode
                        ++ js " - " ++ data)).
Proof.
  unfold makeRequest, makeRequest_on_end.
  destruct (https_request sent) as [statusCode data|e'|].
  - destruct (status_is_success statusCode) eqn:Hstatus.
    + destruct (JSON_parse data); discriminate.
    + intro Hcall. right. right. exists statusCode, data.
      split; [reflexivity|]. split; [exact Hstatus|congruence].
  - intro Hcall. left. congruence.
  - intro Hcall. right. left. split; [reflexivity|congruence].
Qed.

End MakeRequestInversion.

(** ** Token store, further *)


(** X12.  What [loadRefreshToken] returns has no white space at either
    end, and saving it back changes nothing that a load can see; a token
    file that is empty or all white space loads as the empty string, not
    as an absent value. *)
Theorem load_is_stable (w : World) (token : jsstring) :
  fst (loadRefreshToken w) = Returned (Some token) ->
  clean_edges token
  /\ fst (loadRefreshToken (snd (saveRefreshToken token w)))
     = Returned (Some token)
  /\ (forall content, token_file w = Some content ->
        (blank content = true <-> token = [])).
Proof.
  rewrite loadRefreshToken_eq. cbn [fst].
  destruct (token_file w) as [content|] eqn:Hfile; [|discriminate].
  cbn [option_map]. intro H. injection H as <-.
  split; [apply trim_clean_edges|]. split.
  - rewrite loadRefreshToken_eq. cbn [fst saveRefreshToken fs_write_token_file
                                        snd token_file option_map].
    now rewrite trim_idempotent.
  - intros content' Heq. injection Heq as <-.
    symmetry. apply trim_nil_iff.
Qed.

(** ** Resolving the refresh token, further *)

Lemma truthy_trim (s : jsstring) : truthy (JS.String_trim s) = negb (blank s).
Proof.
  destruct (blank s) eqn:E.
  - apply trim_nil_iff in E. now rewrite E.
  - apply truthy_true_iff. intro Habs. apply trim_nil_iff in Habs. congruence.
Qed.

Lemma getRefreshToken_not_configured (w : World) :
  not_configured w ->
  getRefreshToken w = (Thrown (mkError getRefreshToken_message), w).
Proof.
  intros [Henv Hfile]. rewrite (getRefreshToken_file w Henv).
  destruct (token_file w) as [content|]; [|reflexivity].
  now rewrite truthy_trim, (Hfile content eq_refl).
Qed.

(** X13.  [getRefreshToken] returns a token exactly when the environment
    entry is not empty or the token file is not blank; the token is the
    environment value as it is in the first case, and the trimmed file
    content otherwise. *)
Theorem getRefreshToken_criterion (w : World) :
  ((exists token, fst (getRefreshToken w) = Returned token)
   <-> (truthy_opt (env_DROPBOX_REFRESH_TOKEN w) = true
        \/ exists content, token_file w = Some content
                           /\ blank content = false))
  /\ (forall token,
        fst (getRefreshToken w) = Returned token ->
        (truthy_opt (env_DROPBOX_REFRESH_TOKEN w) = true
         /\ env_DROPBOX_REFRESH_TOKEN w = Some token)
        \/ (truthy_opt (env_DROPBOX_REFRESH_TOKEN w) = false
            /\ exists content, token_file w = Some content
                               /\ token = JS.String_trim content)).
Proof.
  destruct (truthy_opt (env_DROPBOX_REFRESH_TOKEN w)) eqn:Henv.
  - destruct (env_DROPBOX_REFRESH_TOKEN w) as [e|] eqn:He; [|discriminate].
    cbn [truthy_opt] in Henv. apply truthy_true_iff in Henv.
    rewrite (getRefreshToken_env w e He Henv). cbn [fst]. split.
    + split; [intros _; now left | intros _; now exists e].
    + intros token H. injection H as <-. now left.
  - rewrite (getRefreshToken_file w Henv). cbn [fst].
    destruct (token_file w) as [content|].
    + rewrite truthy_trim. destruct (blank content) eqn:Hblank; cbn [negb].
      * split.
        -- split; [intros [? H]; discriminate H|].
           intros [H | (c & Hc & Hb)]; [discriminate H|].
           injection Hc as <-. congruence.
        -- intros token H. discriminate H.
      * split.
        -- split; [intros _; right; now exists content|].
           intros _. now exists (JS.String_trim content).
        -- intros token H. injection H as <-. right.
           split; [reflexivity|]. now exists content.
    + split.
      * split; [intros [? H]; discriminate H|].
        intros [H | (c & Hc & _)]; discriminate.
      * intros token H. discriminate H.
Qed.

Section StatusAndToken.

Variable TOKEN_FILE_PATH : jsstring.

(** X14.  When [auth_status] reports a configured token,
    [getRefreshToken] returns one, and the report [none] is exactly the
    report of nothing configured. *)
Theorem auth_status_sound (w : World) (configured : bool)
  (source : jsstring) :
  fst (auth_status_value TOKEN_FILE_PATH w)
  = Returned (status_object configured source) ->
  (configured = true ->
   exists token, getRefreshToken w = (Returned token, w))
  /\ (configured = false <-> source = js "none").
Proof.
  pose proof (auth_status_value_eq TOKEN_FILE_PATH w) as Hvalue.
  cbv zeta in Hvalue. rewrite Hvalue. cbn [fst]. rewrite !truthy_trim.
  unfold status_object. intro H. injection H as Hc Hs.
  split.
  - intros ->.
    destruct (truthy_opt (env_DROPBOX_REFRESH_TOKEN w)) eqn:Henv.
    + destruct (env_DROPBOX_REFRESH_TOKEN w) as [e|] eqn:He; [|discriminate].
      exists e. apply getRefreshToken_env; [exact He|].
      now apply truthy_true_iff.
    + rewrite (getRefreshToken_file w Henv).
      assert (Hblank : blank (or_empty (env_DROPBOX_REFRESH_TOKEN w)) = true).
      { destruct (env_DROPBOX_REFRESH_TOKEN w) as [e|]; [|reflexivity].
        cbn [truthy_opt] in Henv. apply truthy_false_iff in Henv.
        now subst e. }
      rewrite Hblank in Hc. cbn [negb orb] in Hc.
      destruct (token_file w) as [content|]; [|discriminate Hc].
      cbn [or_empty] in Hc. rewrite truthy_trim, Hc.
      now exists (JS.String_trim content).
  - subst configured source.
    destruct (blank (or_empty (env_DROPBOX_REFRESH_TOKEN w)));
      destruct (blank (or_empty (token_file w))); cbn [negb orb];
      split; intro H; try reflexivity; discriminate H.
Qed.

End StatusAndToken.

(** ** Operations, further *)

Section Operations.

Variable https_request : Request -> Incoming.
Variables APP_KEY APP_SECRET TOKEN_FILE_PATH : jsstring.
Variable URLSearchParams_toString : list (jsstring * jsstring) -> jsstring.
Variable Buffer_byteLength : jsstring -> Z.
Context {parse_TokenResponse : FromJSON TokenResponse.t}.
Context {parse_TokenPair : FromJSON TokenPair.t}.
Context {parse_ListFolder : FromJSON DropboxListFolderResponse}.
Context {parse_string : FromJSON jsstring}.
Variable Metadata : Type.
Context {parse_Metadata : FromJSON Metadata}.
Context {cast_Metadata : FromText Metadata}.

Local Notation getAccessToken' :=
  (getAccessToken https_request APP_KEY APP_SECRET URLSearchParams_toString
                  Buffer_byteLength).
Local Notation downloadFile' :=
  (downloadFile https_request APP_KEY APP_SECRET URLSearchParams_toString
                Buffer_byteLength).
Local Notation listFolder' :=
  (listFolder https_request APP_KEY APP_SECRET URLSearchParams_toString
              Buffer_byteLength).
Local Notation uploadFile' :=
  (uploadFile https_request APP_KEY APP_SECRET URLSearchParams_toString
              Buffer_byteLength Metadata).
Local Notation exchangeCodeForToken' :=
  (exchangeCodeForToken https_request APP_KEY APP_SECRET
                        URLSearchParams_toString Buffer_byteLength).
Local Notation dropbox_auth_exchange_code' :=
  (dropbox_auth_exchange_code https_request APP_KEY APP_SECRET TOKEN_FILE_PATH
                              URLSearchParams_toString Buffer_byteLength).

(** The request [getAccessToken] sends for a refresh token. *)
Local Notation token_request refreshToken :=
  (let body :=
     URLSearchParams_toString (refresh_params APP_KEY APP_SECRET refreshToken) in
   mkRequest (js "api.dropboxapi.com") (js "/oauth2/token") (js "POST")
             (form_headers Buffer_byteLength body)
             (if truthy body then Some body else None)).

Lemma getAccessToken_after_token (w : World) (refreshToken : jsstring) :
  getRefreshToken w = (Returned refreshToken, w) ->
  getAccessToken' w
  = (match https_request (token_request refreshToken) with
     | ResponseEnd statusCode data =>
         match makeRequest_on_end statusCode data with
         | Returned response => Returned (TokenResponse.access_token response)
         | Thrown e => Thrown e
         end
     | RequestError e => Thrown e
     | SocketIdle => Thrown (mkError (js "Request timed out"))
     end, w).
Proof.
  intro Htoken. unfold getAccessToken, bind. rewrite Htoken.
  unfold lift, makeRequest. cbn [truthy_opt].
  destruct (https_request _) as [statusCode data|e|]; try reflexivity.
  now destruct (makeRequest_on_end statusCode data).
Qed.

Lemma getAccessToken_throws (w : World) (e : Error) :
  getRefreshToken w = (Thrown e, w) -> getAccessToken' w = (Thrown e, w).
Proof. intro H. unfold getAccessToken, bind. now rewrite H. Qed.

Lemma operations_after_failure (w w' : World) (e : Error) :
  getAccessToken' w = (Thrown e, w') ->
  forall filePath content folderPath,
    downloadFile' filePath w = (Thrown e, w')
    /\ listFolder' folderPath w = (Thrown e, w')
    /\ uploadFile' filePath content w = (Thrown e, w').
Proof.
  intros H filePath content folderPath.
  unfold downloadFile, listFolder, uploadFile, bind. now rewrite H.
Qed.

(** X15.  With no refresh token configured, [getAccessToken] and the
    three operations fail with the configuration error whatever the
    network would answer, and leave the state as it was. *)
Theorem operations_need_a_token (w : World)
  (filePath content folderPath : jsstring) :
  not_configured w ->
  getAccessToken' w = (Thrown (mkError getRefreshToken_message), w)
  /\ downloadFile' filePath w
     = (Thrown (mkError getRefreshToken_message), w)
  /\ listFolder' folderPath w
     = (Thrown (mkError getRefreshToken_message), w)
  /\ uploadFile' filePath content w
     = (Thrown (mkError getRefreshToken_message), w).
Proof.
  intros Hnone.
  pose proof (getAccessToken_throws w _
                (getRefreshToken_not_configured w Hnone)) as Hfail.
  split; [exact Hfail|].
  apply (operations_after_failure w w _ Hfail).
Qed.

(** X16.  When the token endpoint answers the refresh request with a
    status outside [200, 300), the three operations fail with the error
    of that answer and leave the state as it was. *)
Theorem token_endpoint_failure_propagates (w : World)
  (refreshToken : jsstring) (code : Z) (data : jsstring)
  (filePath content folderPath : jsstring) :
  getRefreshToken w = (Returned refreshToken, w) ->
  https_request (token_request refreshToken) = ResponseEnd (Some code) data ->
  ~ (200 <= code < 300) ->
  let failure :=
    mkError (js "Request failed: " ++ JS.String_of_number code
             ++ js " - " ++ data) in
  downloadFile' filePath w = (Thrown failure, w)
  /\ listFolder' folderPath w = (Thrown failure, w)
  /\ uploadFile' filePath content w = (Thrown failure, w).
Proof.
  intros Htoken Hanswer Hcode failure. subst failure.
  apply operations_after_failure.
  rewrite (getAccessToken_after_token w refreshToken Htoken).
  cbv zeta in Hanswer. cbv zeta. rewrite Hanswer.
  unfold makeRequest_on_end.
  destruct (status_is_success (Some code)) eqn:E; [|reflexivity].
  apply status_is_success_iff in E. contradiction.
Qed.





End Operations.

(** ** Opening the browser *)

(** X21.  [openBrowser] never runs a program on Windows, where it only
    prints the line asking to open the URL by hand.  On every platform
    it runs at most one program, [open] on macOS and [xdg-open]
    elsewhere, with the URL as its only argument; the only line it
    prints is the one asking to open the URL by hand, and it prints it
    exactly when no program was run with success. *)
Theorem openBrowser_effects (platform : jsstring)
  (execFile_ok : jsstring -> list jsstring -> bool) (url : jsstring) :
  let effects := openBrowser platform execFile_ok url in
  (platform = js "win32" -> effects = [ConsoleError (open_manually url)])
  /\ (forall command arguments,
        In (ExecFile command arguments) effects ->
        arguments = [url]
        /\ (command = js "open" /\ platform = js "darwin"
            \/ command = js "xdg-open" /\ platform <> js "darwin"
               /\ platform <> js "win32"))
  /\ (forall line, In (ConsoleError line) effects ->
                   line = open_manually url)
  /\ (In (ConsoleError (open_manually url)) effects
      <-> ~ exists command,
              In (ExecFile command [url]) effects
              /\ execFile_ok command [url] = true)
  /\ (length effects <= 2)%nat.
Proof.
  intros effects. subst effects. unfold openBrowser.
  destruct (jsstring_eqb platform (js "darwin")) eqn:Hdarwin.
  - apply jsstring_eqb_eq in Hdarwin. subst platform.
    split; [discriminate|].
    destruct (execFile_ok (js "open") [url]) eqn:Hok.
    + split.
      { intros c a [H|[]]. injection H as <- <-. auto. }
      split; [intros l [H|[]]; discriminate H|]. split; [|simpl; lia].
      split.
      * intros [H|[]]. discriminate H.
      * intro Hno. exfalso. apply Hno. exists (js "open").
        split; [now left | exact Hok].
    + split.
      { intros c a [H|[H|[]]]; [|discriminate H].
        injection H as <- <-. auto. }
      split.
      { intros l [H|[H|[]]]; [discriminate H|]. now injection H as <-. }
      split; [|simpl; lia]. split.
      * intros _ (c & [H|[H|[]]] & Hc); [|discriminate H].
        injection H as <-.
        change (execFile_ok (js "open") [url] = true) in Hc. congruence.
      * intros _. right. now left.
  - destruct (jsstring_eqb platform (js "win32")) eqn:Hwin.
    + split; [reflexivity|].
      split; [intros c a [H|[]]; discriminate H|].
      split; [intros l [H|[]]; now injection H as <-|].
      split; [|simpl; lia]. split.
      * intros _ (c & [H|[]] & _). discriminate H.
      * intros _. now left.
    + assert (Hnd : platform <> js "darwin").
      { intro H. apply jsstring_eqb_eq in H. congruence. }
      assert (Hnw : platform <> js "win32").
      { intro H. apply jsstring_eqb_eq in H. congruence. }
      split; [intro H; contradiction|].
      destruct (execFile_ok (js "xdg-open") [url]) eqn:Hok.
      * split.
        { intros c a [H|[]]. injection H as <- <-. auto. }
        split; [intros l [H|[]]; discriminate H|]. split; [|simpl; lia].
        split.
        -- intros [H|[]]. discriminate H.
        -- intro Hno. exfalso. apply Hno. exists (js "xdg-open").
           split; [now left | exact Hok].
      * split.
        { intros c a [H|[H|[]]]; [|discriminate H].
          injection H as <- <-. auto. }
        split.
        { intros l [H|[H|[]]]; [discriminate H|]. now injection H as <-. }
        split; [|simpl; lia]. split.
        -- intros _ (c & [H|[H|[]]] & Hc); [|discriminate H].
           injection H as <-.
           change (execFile_ok (js "xdg-open") [url] = true) in Hc.
           congruence.
        -- intros _. right. now left.
Qed.

(** ** Start-up *)

Lemma requireEnv_cases (env : ProcessEnv) (name : jsstring) :
  (truthy_opt (env name) = true /\
   exists value, env name = Some value /\ requireEnv env name = Started value)
  \/ (truthy_opt (env name) = false /\
      requireEnv env name = Exited 1 requireEnv_lines).
Proof.
  unfold requireEnv. destruct (env name) as [value|]; [|now right].
  cbn [truthy_opt]. destruct (truthy value); cbn [negb].
  - left. split; [reflexivity|]. now exists value.
  - now right.
Qed.

(** X22.  The configuration is loaded exactly when the application key
    and the application secret are both set and not empty; otherwise
    the process exits with code 1 after the same two lines, whichever of
    the two is missing.  A loaded configuration holds the two values as
    they are, and for the token file the value of [DROPBOX_TOKEN_FILE]
    whenever it is set, even to the empty string, and the default path
    only when it is not set. *)
Theorem load_config_outcomes (env : ProcessEnv) (default_token_file : jsstring) :
  let key := env (js "DROPBOX_APP_KEY") in
  let secret := env (js "DROPBOX_APP_SECRET") in
  (truthy_opt key = true -> truthy_opt secret = true ->
   exists k s,
     key = Some k /\ secret = Some s
     /\ load_config env default_token_file
        = Started (Config.mk k s
                     (match env (js "DROPBOX_TOKEN_FILE") with
                      | Some override => override
                      | None => default_token_file
                      end)))
  /\ (truthy_opt key = false \/ truthy_opt secret = false ->
      load_config env default_token_file = Exited 1 requireEnv_lines)
  /\ (forall config,
        load_config env default_token_file = Started config ->
        env (js "DROPBOX_TOKEN_FILE") = Some [] ->
        Config.TOKEN_FILE_PATH config = []).
Proof.
  intros key secret. subst key secret. unfold load_config.
  destruct (requireEnv_cases env (js "DROPBOX_APP_KEY"))
    as [(Hk & k & Hkey & ->) | (Hk & ->)]; rewrite Hk.
  - destruct (requireEnv_cases env (js "DROPBOX_APP_SECRET"))
      as [(Hs & s & Hsecret & ->) | (Hs & ->)]; rewrite Hs.
    + split; [intros _ _; now exists k, s|].
      split; [intros [H|H]; discriminate H|].
      intros config H Hfile. rewrite Hfile in H. injection H as <-.
      reflexivity.
    + split; [intros _ H; discriminate H|].
      split; [reflexivity|]. intros config H. discriminate H.
  - split; [intros H; discriminate H|].
    split; [reflexivity|]. intros config H. discriminate H.
Qed.

(** ** The handler of tool calls *)

Section Dispatch.

Variable https_request : Request -> Incoming.
Variables APP_KEY APP_SECRET TOKEN_FILE_PATH : jsstring.
Variable URLSearchParams_toString : list (jsstring * jsstring) -> jsstring.
Variable Buffer_byteLength : jsstring -> Z.
Context {parse_TokenResponse : FromJSON TokenResponse.t}.
Context {parse_TokenPair : FromJSON TokenPair.t}.
Context {parse_ListFolder : FromJSON DropboxListFolderResponse}.
Context {parse_string : FromJSON jsstring}.
Variable Metadata : Type.
Context {parse_Metadata : FromJSON Metadata}.
Context {cast_Metadata : FromText Metadata}.
Variable stringify_Metadata : Metadata -> jsstring.
Variable stringify_entries : list DropboxEntry -> jsstring.
Variable platform : jsstring.
Variable execFile_ok : jsstring -> list jsstring -> bool.
Variable now : LocalTime.

Local Notation getAccessToken' :=
  (getAccessToken https_request APP_KEY APP_SECRET URLSearchParams_toString
                  Buffer_byteLength).
Local Notation CallTool' :=
  (CallTool https_request APP_KEY APP_SECRET TOKEN_FILE_PATH
            URLSearchParams_toString Buffer_byteLength Metadata
            stringify_Metadata stringify_entries platform execFile_ok now).
Local Notation CallTool_switch' :=
  (CallTool_switch https_request APP_KEY APP_SECRET TOKEN_FILE_PATH
            URLSearchParams_toString Buffer_byteLength Metadata
            stringify_Metadata stringify_entries platform execFile_ok now).

Lemma getAccessToken_pure (w : World) : snd (getAccessToken' w) = w.
Proof.
  unfold getAccessToken, bind.
  pose proof (getRefreshToken_pure w) as Hpure.
  destruct (getRefreshToken w) as [[refreshToken|e] w1];
    cbn [snd] in Hpure; subst w1; [|reflexivity].
  unfold lift. now destruct (makeRequest _ _ _ _ _ _).
Qed.





Lemma upload_pure (filePath content : jsstring) (w : World) :
  snd (uploadFile https_request APP_KEY APP_SECRET URLSearchParams_toString
                  Buffer_byteLength Metadata filePath content w) = w.
Proof.
  unfold uploadFile, bind. pose proof (getAccessToken_pure w) as Hpure.
  destruct (getAccessToken' w) as [[accessToken|e] w1];
    cbn [snd] in Hpure; subst w1; reflexivity.
Qed.




End Dispatch.

Lemma unlisted_name (name : jsstring) :
  ~ In name (map Tool.name ListTools) ->
  forall listed, In listed (map Tool.name ListTools) ->
                 jsstring_eqb name listed = false.
Proof.
  intros Hout listed Hin.
  destruct (jsstring_eqb name listed) eqn:E; [|reflexivity].
  apply jsstring_eqb_eq in E. subst listed. contradiction.
Qed.

(** X24.  A tool name is answered with the error [Unknown tool: ] and
    the name, in every state, for all arguments and whatever the
    network and the host do, exactly when it is not one of the seven
    names that the list of tools announces; a call with such a name
    changes nothing and runs nothing. *)
Theorem unknown_tool_iff_unlisted (name : jsstring) :
  ~ In name (map Tool.name ListTools)
  <-> (forall (https_request : Request -> Incoming)
              (APP_KEY APP_SECRET TOKEN_FILE_PATH : jsstring)
              (URLSearchParams_toString : list (jsstring * jsstring) -> jsstring)
              (Buffer_byteLength : jsstring -> Z)
              (parse_TokenResponse : FromJSON TokenResponse.t)
              (parse_TokenPair : FromJSON TokenPair.t)
              (parse_ListFolder : FromJSON DropboxListFolderResponse)
              (parse_string : FromJSON jsstring)
              (Metadata : Type) (parse_Metadata : FromJSON Metadata)
              (cast_Metadata : FromText Metadata)
              (stringify_Metadata : Metadata -> jsstring)
              (stringify_entries : list DropboxEntry -> jsstring)
              (platform : jsstring)
              (execFile_ok : jsstring -> list jsstring -> bool)
              (now : LocalTime) (args : Args.t) (w : World),
         CallTool https_request APP_KEY APP_SECRET TOKEN_FILE_PATH
                  URLSearchParams_toString Buffer_byteLength Metadata
                  stringify_Metadata stringify_entries platform execFile_ok
                  now (CallToolRequest.mk name args) w
         = (ToolOutput.mk (Some (js "Error: Unknown tool: " ++ name)) true,
            [], w)).
Proof.
  split.
  - intros Hout. intros.
    pose proof (unlisted_name name Hout) as Hno.
    unfold CallTool, CallTool_switch.
    cbn [CallToolRequest.name CallToolRequest.arguments].
    rewrite !Hno by (cbn; tauto). reflexivity.
  - intros Hall Hin.
    specialize (Hall (fun _ => RequestError (mkError [])) [] [] [] 
                     Sample.URLSearchParams_toString Sample.Buffer_byteLength
                     Sample.parse_none Sample.parse_none Sample.parse_none
                     Sample.parse_none unit Sample.parse_none (fun _ => tt)
                     (fun _ => []) (fun _ => []) []
                     (fun _ _ => true) Sample.december_2024
                     (Args.mk None [] None [] [] [] []) Sample.unconfigured).
    cbn [map ListTools Tool.name In] in Hin.
    repeat (destruct Hin as [<- | Hin];
            [vm_compute in Hall; discriminate Hall|]).
    exact Hin.
Qed.

(** ** The further properties at concrete inputs *)

Lemma escapeNonAscii_range_witness :
  Forall (fun c => 0 <= c < 127) (escapeNonAscii Fixture.cafe).
Proof.
  exact (proj1 (escapeNonAscii_range Fixture.cafe
                  (code_units_only_wf Fixture.cafe eq_refl))).
Defined.

Lemma escapeNonAscii_idempotent_witness :
  escapeNonAscii (escapeNonAscii Fixture.cafe)
  = js "/caf" ++ js "\u" ++ js "00e9".
Proof.
  exact (escapeNonAscii_idempotent Fixture.cafe
           (code_units_only_wf Fixture.cafe eq_refl)).
Defined.

Lemma escapeNonAscii_length_witness :
  length (escapeNonAscii Fixture.cafe) = 10%nat.
Proof.
  exact (escapeNonAscii_length Fixture.cafe
           (code_units_only_wf Fixture.cafe eq_refl)).
Defined.

Lemma download_header_injective_witness : Fixture.cafe = js "/caf" ++ [233].
Proof.
  exact (download_header_injective (Some (js "x")) (Some (js "x"))
           Fixture.cafe (js "/caf" ++ [233])
           (code_units_only_wf Fixture.cafe eq_refl)
           (code_units_only_wf (js "/caf" ++ [233]) eq_refl)
           eq_refl).
Defined.

Lemma upload_header_escaping_witness :
  header_lookup (js "Dropbox-API-Arg")
                (upload_headers (Some (js "x")) Fixture.cafe)
  = Some (upload_arg_json (js "/caf" ++ js "\u" ++ js "00e9")).
Proof.
  exact (proj1 (upload_header_escaping (Some (js "x")) Fixture.cafe
                  (code_units_only_wf Fixture.cafe eq_refl))).
Defined.

(** An empty upload: no body is written. *)
Lemma uploadFile_request_witness :
  uploadFile (parse_TokenResponse := Fixture.parse_token)
             (parse_Metadata := Sample.parse_none)
             (cast_Metadata := text_as_string)
             Fixture.token_server Sample.APP_KEY Sample.APP_SECRET
             Sample.URLSearchParams_toString Sample.Buffer_byteLength
             jsstring (js "/a.txt") [] Sample.env_only
  = (match Fixture.token_server
             (mkRequest (js "content.dropboxapi.com") (js "/2/files/upload")
                        (js "POST")
                        (upload_headers (Some (js "x")) (js "/a.txt")) None)
     with
     | ResponseEnd statusCode data =>
         makeRequest_on_end (parse := Sample.parse_none) statusCode data
     | RequestError e => Thrown e
     | SocketIdle => Thrown (mkError (js "Request timed out"))
     end, Sample.env_only).
Proof.
  exact (uploadFile_request
           (parse_TokenResponse := Fixture.parse_token)
           (parse_Metadata := Sample.parse_none)
           (cast_Metadata := text_as_string)
           Fixture.token_server Sample.APP_KEY Sample.APP_SECRET
           Sample.URLSearchParams_toString Sample.Buffer_byteLength
           jsstring (js "/a.txt") [] Sample.env_only Sample.env_only
           (Some (js "x")) eq_refl).
Defined.

Lemma generateFileName_no_forbidden_witness :
  forallb (fun c => negb (filename_forbidden c))
          (generateFileName Sample.december_2024 (js "a/b: c")) = true.
Proof.
  assert (Hvalid : valid_LocalTime Sample.december_2024)
    by (unfold valid_LocalTime; simpl; lia).
  exact (generateFileName_no_forbidden Sample.december_2024 (js "a/b: c")
                                       Hvalid).
Defined.

(** The titles [a/b] and [a:b] get the same file name. *)
Lemma generateFileName_collisions_witness :
  generateFileName Sample.december_2024 (js "a/b")
  = generateFileName Sample.december_2024 (js "a:b").
Proof.
  assert (Hvalid : valid_LocalTime Sample.december_2024)
    by (unfold valid_LocalTime; simpl; lia).
  exact (proj2 (proj1 (generateFileName_collisions Sample.december_2024
                         (js "a/b") (js "a:b") Hvalid)) eq_refl).
Defined.

Lemma makeRequest_resolves_only_on_success_witness :
  exists code data,
    Fixture.answers 200 (js "plain text")
      (mkRequest (js "content.dropboxapi.com") (js "/2/files/download")
                 (js "POST") [] None)
    = ResponseEnd (Some code) data
    /\ 200 <= code < 300
    /\ (Sample.parse_none data = Some (js "plain text")
        \/ Sample.parse_none (T := jsstring) data = None
           /\ js "plain text" = text_as data).
Proof.
  exact (makeRequest_resolves_only_on_success
           (T := jsstring) (parse := Sample.parse_none)
           (Fixture.answers 200 (js "plain text"))
           (js "content.dropboxapi.com") (js "/2/files/download") (js "POST")
           [] None (js "plain text") eq_refl).
Defined.

Lemma makeRequest_failures_witness :
  Fixture.offline
    (mkRequest (js "content.dropboxapi.com") (js "/2/files/download")
               (js "POST") [] None)
  = RequestError (mkError (js "offline"))
  \/ (Fixture.offline
        (mkRequest (js "content.dropboxapi.com") (js "/2/files/download")
                   (js "POST") [] None) = SocketIdle
      /\ mkError (js "offline") = mkError (js "Request timed out"))
  \/ (exists statusCode data,
        Fixture.offline
          (mkRequest (js "content.dropboxapi.com") (js "/2/files/download")
                     (js "POST") [] None)
        = ResponseEnd statusCode data
        /\ status_is_success statusCode = false
        /\ mkError (js "offline")
           = mkError (js "Request failed: " ++ template_number statusCode
                      ++ js " - " ++ data)).
Proof.
  exact (makeRequest_failures
           (T := jsstring) (parse := Sample.parse_none)
           Fixture.offline
           (js "content.dropboxapi.com") (js "/2/files/download") (js "POST")
           [] None (mkError (js "offline")) eq_refl).
Defined.


(** A token file that holds the token between spaces. *)
Lemma load_is_stable_witness :
  fst (loadRefreshToken
         (snd (saveRefreshToken (js "tok")
                 (mkWorld None (Some (js " tok "))))))
  = Returned (Some (js "tok")).
Proof.
  exact (proj1 (proj2 (load_is_stable (mkWorld None (Some (js " tok ")))
                         (js "tok") eq_refl))).
Defined.

Lemma getRefreshToken_criterion_witness :
  exists token, fst (getRefreshToken Sample.env_only) = Returned token.
Proof.
  exact (proj2 (proj1 (getRefreshToken_criterion Sample.env_only))
               (or_introl eq_refl)).
Defined.

Lemma auth_status_sound_witness :
  exists token,
    getRefreshToken Sample.env_only = (Returned token, Sample.env_only).
Proof.
  exact (proj1 (auth_status_sound Sample.TOKEN_FILE_PATH Sample.env_only
                  true (js "env:DROPBOX_REFRESH_TOKEN") eq_refl) eq_refl).
Defined.

Lemma operations_need_a_token_witness :
  downloadFile (parse_TokenResponse := Sample.parse_none)
               (parse_string := Sample.parse_none)
               Fixture.token_server Sample.APP_KEY Sample.APP_SECRET
               Sample.URLSearchParams_toString Sample.Buffer_byteLength
               (js "/a.txt") Sample.unconfigured
  = (Thrown (mkError getRefreshToken_message), Sample.unconfigured).
Proof.
  assert (Hnone : not_configured Sample.unconfigured)
    by (split; [reflexivity | intros content H; discriminate H]).
  exact (proj1 (proj2
    (operations_need_a_token
       (parse_TokenResponse := Sample.parse_none)
       (parse_ListFolder := Sample.parse_none)
       (parse_string := Sample.parse_none)
       (parse_Metadata := Sample.parse_none)
       (cast_Metadata := text_as_string)
       Fixture.token_server Sample.APP_KEY Sample.APP_SECRET
       Sample.URLSearchParams_toString Sample.Buffer_byteLength jsstring
       Sample.unconfigured (js "/a.txt") [] (js "/") Hnone))).
Defined.

(** The token endpoint answers 401. *)
Lemma token_endpoint_failure_propagates_witness :
  listFolder (parse_TokenResponse := Sample.parse_none)
             (parse_ListFolder := Sample.parse_none)
             (Fixture.answers 401 (js "expired"))
             Sample.APP_KEY Sample.APP_SECRET
             Sample.URLSearchParams_toString Sample.Buffer_byteLength
             (js "/") Sample.env_only
  = (Thrown (mkError (js "Request failed: 401 - expired")), Sample.env_only).
Proof.
  exact (proj1 (proj2
    (token_endpoint_failure_propagates
       (parse_TokenResponse := Sample.parse_none)
       (parse_ListFolder := Sample.parse_none)
       (parse_string := Sample.parse_none)
       (parse_Metadata := Sample.parse_none)
       (cast_Metadata := text_as_string)
       (Fixture.answers 401 (js "expired"))
       Sample.APP_KEY Sample.APP_SECRET
       Sample.URLSearchParams_toString Sample.Buffer_byteLength jsstring
       Sample.env_only (js "tok") 401 (js "expired")
       (js "/a.txt") [] (js "/") eq_refl eq_refl ltac:(lia)))).
Defined.





(** Windows: nothing is run. *)
Lemma openBrowser_effects_witness :
  openBrowser (js "win32") (fun _ _ => true) (js "https://example.test")
  = [ConsoleError (js "Please open this URL manually: https://example.test")].
Proof.
  exact (proj1 (openBrowser_effects (js "win32") (fun _ _ => true)
                  (js "https://example.test")) eq_refl).
Defined.

(** The secret is missing: the process exits. *)
Lemma load_config_outcomes_witness :
  load_config Fixture.env_without_secret (js "/home/user/.dropbox_token")
  = Exited 1 requireEnv_lines.
Proof.
  exact (proj1 (proj2 (load_config_outcomes Fixture.env_without_secret
                         (js "/home/user/.dropbox_token")))
               (or_intror eq_refl)).
Defined.

Example load_config_complete :
  load_config Fixture.env_complete (js "/home/user/.dropbox_token")
  = Started (Config.mk (js "key") (js "secret")
                       (js "/home/user/.dropbox_token")).
Proof. reflexivity. Qed.


Example get_url_call :
  Fixture.CallTool_offline Fixture.get_url_request Sample.unconfigured
  = (ToolOutput.mk
       (Some (js "https://www.dropbox.com/oauth2/authorize?client_id=key&response_type=code&token_access_type=offline"))
       false,
     [ExecFile (js "xdg-open")
        [js "https://www.dropbox.com/oauth2/authorize?client_id=key&response_type=code&token_access_type=offline"]],
     Sample.unconfigured).
Proof. reflexivity. Qed.

(** A name that is not announced. *)
Lemma unknown_tool_iff_unlisted_witness :
  Fixture.CallTool_offline
    (CallToolRequest.mk (js "dropbox_delete")
                        (Args.mk None [] None [] [] [] []))
    Sample.env_only
  = (ToolOutput.mk (Some (js "Error: Unknown tool: dropbox_delete")) true,
     [], Sample.env_only).
Proof.
  assert (Hout : ~ In (js "dropbox_delete") (map Tool.name ListTools)).
  { intro Hin. cbn [map ListTools Tool.name In] in Hin.
    repeat (destruct Hin as [H | Hin]; [discriminate H|]). exact Hin. }
  exact (proj1 (unknown_tool_iff_unlisted (js "dropbox_delete")) Hout
           Fixture.offline Sample.APP_KEY Sample.APP_SECRET
           Sample.TOKEN_FILE_PATH Sample.URLSearchParams_toString
           Sample.Buffer_byteLength Sample.parse_none Sample.parse_none
           Sample.parse_none Sample.parse_none jsstring Sample.parse_none
           text_as_string (fun text => text) (fun _ => js "[]") (js "linux")
           (fun _ _ => true) Sample.december_2024
           (Args.mk None [] None [] [] [] []) Sample.env_only).
Defined.

